(** * def-marl: value-function heads, latent conditioning and the rollout record

    A shallow embedding of
      - [defmarl/algo/module/ef_wrapper.py]  (ZEncoder, EFWrapper),
      - [defmarl/algo/module/value.py]       (StateFn, RStateFn, DecRStateFn, ValueNet),
      - [defmarl/trainer/data.py]            (Rollout).

    Arrays are [jax.numpy] arrays: a shape and a row-major buffer.  Floating
    point numbers are read as real numbers.  A Python exception is a value of
    [error]; a call that can raise returns a [result]. *)

From Stdlib Require Import Reals Lra Lia List Bool Arith.
Import ListNotations.

Open Scope R_scope.

(** ** Exceptions and fallible calls *)

Inductive error : Type :=
| AssertionError        (* a failed [assert] *)
| TypeError             (* arithmetic on [None]; [jnp.concatenate] on mismatched shapes *)
| ValueError            (* concatenation of rank-0 arrays *)
| IndexError            (* [shape[k]] past the rank; an axis out of bounds *)
| ScopeParamShapeError  (* flax: a stored parameter does not fit the input *)
| ScopeParamNotFoundError (* flax: a layer finds no stored parameter *)
| AttributeError.       (* an attribute that was never set *)

Inductive result (A : Type) : Type :=
| Ok (a : A)
| Err (e : error).

Arguments Ok {A} a.
Arguments Err {A} e.

Definition bind {A B : Type} (r : result A) (k : A -> result B) : result B :=
  match r with
  | Ok a => k a
  | Err e => Err e
  end.

Notation "x <- r ;; k" := (bind r (fun x => k))
  (at level 61, r at next level, right associativity).
Notation "' p <- r ;; k" := (bind r (fun p => k))
  (at level 61, p pattern, r at next level, right associativity, only parsing).

(** [assert c] *)
Definition assert (c : bool) : result unit :=
  if c then Ok tt else Err AssertionError.

(** ** Arrays *)

Record Array : Type := mkArray { shape : list nat; data : list R }.

Definition ndim (a : Array) : nat := length (shape a).

(** Number of elements of an array of shape [s]. *)
Definition size_of (s : list nat) : nat := fold_right Nat.mul 1%nat s.

(** The buffer has one entry per element. *)
Definition wf (a : Array) : Prop := length (data a) = size_of (shape a).

Fixpoint shape_eqb (s t : list nat) : bool :=
  match s, t with
  | [], [] => true
  | m :: s', n :: t' => Nat.eqb m n && shape_eqb s' t'
  | _, _ => false
  end.

(** [a.shape[k]] *)
Definition shape_at (a : Array) (k : nat) : result nat :=
  match nth_error (shape a) k with
  | Some d => Ok d
  | None => Err IndexError
  end.

(** [s[:-1]] and [s[-1]] of a shape of rank at least one. *)
Definition batch_dims (s : list nat) : list nat := removelast s.
Definition last_dim (s : list nat) : nat := last s 0%nat.

(** The first [n] consecutive runs of [w] entries of a buffer. *)
Fixpoint chunks (w n : nat) (l : list R) : list (list R) :=
  match n with
  | O => []
  | S n' => firstn w l :: chunks w n' (skipn w l)
  end.

(** [a[i]]: the [i]-th slice along the leading axis, as a buffer. *)
Definition row (i : nat) (a : Array) : list R :=
  nth i (chunks (size_of (tl (shape a))) (hd 0%nat (shape a)) (data a)) [].

(** The slices along the final axis ("feature vectors"). *)
Definition feature_rows (a : Array) : list (list R) :=
  chunks (last_dim (shape a)) (size_of (batch_dims (shape a))) (data a).

(** [f] treats an agents-by-features array row by row: on two inputs of one
    shape [(n, d)] its outputs have one shape [(n, d')], and row [i] of the
    output is fixed by row [i] of the input. *)
Definition rowwise (f : Array -> result Array) : Prop :=
  forall (n d : nat) (x1 x2 y1 y2 : Array),
    shape x1 = [n; d] -> shape x2 = [n; d] ->
    f x1 = Ok y1 -> f x2 = Ok y2 ->
    (exists d' : nat, shape y1 = [n; d'] /\ shape y2 = [n; d'])
    /\ forall i : nat, (i < n)%nat -> row i x1 = row i x2 -> row i y1 = row i y2.

(** [jnp.zeros(s)] *)
Definition zeros (s : list nat) : Array := mkArray s (repeat 0 (size_of s)).

(** Elementwise application of [f]. *)
Definition amap (f : R -> R) (a : Array) : Array :=
  mkArray (shape a) (map f (data a)).

Fixpoint vadd (u v : list R) : list R :=
  match u, v with
  | x :: u', y :: v' => (x + y) :: vadd u' v'
  | _, _ => []
  end.

Definition vsum (w : nat) (rows : list (list R)) : list R :=
  fold_right vadd (repeat 0 w) rows.

(** [a.mean(axis=0, keepdims=k)]; on a rank-0 array axis 0 is out of
    bounds, which surfaces as an [IndexError]. *)
Definition mean0 (keepdims : bool) (a : Array) : result Array :=
  match shape a with
  | [] => Err IndexError
  | n :: rest =>
      let w := size_of rest in
      let m := map (fun s => s / INR n) (vsum w (chunks w n (data a))) in
      Ok (mkArray (if keepdims then 1%nat :: rest else rest) m)
  end.

(** [jnp.tile(a, (n, 1))]: [n] copies along the axis before the last one;
    an array of rank below two is first given leading axes of length one. *)
Definition promote2 (s : list nat) : list nat :=
  match s with
  | [] => [1%nat; 1%nat]
  | [d] => [1%nat; d]
  | _ => s
  end.

Definition tile_n1 (n : nat) (a : Array) : Array :=
  let s := promote2 (shape a) in
  let d := last_dim s in
  let r := last_dim (batch_dims s) in
  let pre := batch_dims (batch_dims s) in
  mkArray (pre ++ [(r * n)%nat; d])
          (concat (map (fun b => concat (repeat b n))
                       (chunks (r * d) (size_of pre) (data a)))).

Fixpoint zip_app (xs ys : list (list R)) : list (list R) :=
  match xs, ys with
  | x :: xs', y :: ys' => (x ++ y) :: zip_app xs' ys'
  | _, _ => []
  end.

(** [jnp.concatenate([a, b], axis=-1)] *)
Definition concatenate_last (a b : Array) : result Array :=
  match shape a with
  | [] => Err ValueError
  | _ =>
      if Nat.eqb (ndim a) (ndim b)
         && shape_eqb (batch_dims (shape a)) (batch_dims (shape b))
      then Ok (mkArray (batch_dims (shape a)
                          ++ [(last_dim (shape a) + last_dim (shape b))%nat])
                       (concat (zip_app (feature_rows a) (feature_rows b))))
      else Err TypeError
  end.

(** [z[..., None]] *)
Definition expand_last (z : Array) : Array :=
  mkArray (shape z ++ [1%nat]) (data z).

(** ** [flax.linen.Dense] *)

Record DenseParams : Type := mkDense { kernel : Array; bias : Array }.

Fixpoint dot (u v : list R) : R :=
  match u, v with
  | x :: u', y :: v' => x * y + dot u' v'
  | _, _ => 0
  end.

(** Column [j] of a kernel with [dout] columns stored row-major. *)
Definition column (din dout j : nat) (k : list R) : list R :=
  map (fun r => nth j r 0) (chunks dout din k).

Definition dense_row (din dout : nat) (p : DenseParams) (x : list R) : list R :=
  map (fun j => dot x (column din dout j (data (kernel p))) + nth j (data (bias p)) 0)
      (seq 0 dout).

(** [nn.Dense(features)(x)] under [apply]: the stored kernel must have shape
    [(x.shape[-1], features)] and the stored bias shape [(features,)]. *)
Definition Dense (features : nat) (p : DenseParams) (x : Array) : result Array :=
  match shape x with
  | [] => Err IndexError
  | _ =>
      let din := last_dim (shape x) in
      if shape_eqb (shape (kernel p)) [din; features]
         && shape_eqb (shape (bias p)) [features]
      then Ok (mkArray (batch_dims (shape x) ++ [features])
                       (concat (map (dense_row din features p) (feature_rows x))))
      else Err ScopeParamShapeError
  end.

(** The stored variables of a dense layer fit [din] inputs and [dout] units. *)
Definition fits_dense (din dout : nat) (p : DenseParams) : Prop :=
  shape (kernel p) = [din; dout] /\ shape (bias p) = [dout].

(** [nn.relu] and [nn.tanh] *)
Definition relu (x : R) : R := Rmax 0 x.

(** ** ef_wrapper.py *)

(** A latent code that may be [None], and an encoder class: a module whose
    call takes the latent. *)
Definition ZEncoderCls (ZParams : Type) : Type :=
  ZParams -> option Array -> result Array.

Module ZEncoder.

Record t : Type := mk { nz : nat; z_mean : R; z_scale : R }.

(** 1: Normalize z. *)
Definition norm_z (self : t) (z : Array) : Array :=
  amap (fun v => (v - z_mean self) / z_scale self) z.

Definition call (self : t) (p : DenseParams) (z : option Array) : result Array :=
  match z with
  | None => Err TypeError
  | Some z =>
      enc_z <- Dense (nz self) p (norm_z self z) ;;
      Ok (amap tanh enc_z)
  end.

End ZEncoder.

Module EFWrapper.

Section Def.
Variables BaseParams ZParams : Type.

Record t : Type := mk {
  base_cls : BaseParams -> Array -> result Array;
  z_encoder_cls : ZEncoderCls ZParams
}.

Record Params : Type := mkParams { p_z_encoder : ZParams; p_base : BaseParams }.

Definition call (self : t) (p : Params) (obs z : Array) : result Array :=
  _ <- assert (Nat.eqb (ndim obs) (ndim z + 1)) ;;
  let z := expand_last z in
  enc_z <- z_encoder_cls self (p_z_encoder p) (Some z) ;;
  feat <- concatenate_last obs enc_z ;;
  base_cls self (p_base p) feat.

End Def.

Arguments mk {BaseParams ZParams}.
Arguments base_cls {BaseParams ZParams}.
Arguments z_encoder_cls {BaseParams ZParams}.
Arguments mkParams {BaseParams ZParams}.
Arguments p_z_encoder {BaseParams ZParams}.
Arguments p_base {BaseParams ZParams}.
Arguments call {BaseParams ZParams}.

End EFWrapper.

(** ** value.py *)

(** Modelled from the spec: the class [MLP] of [defmarl/nn/mlp.py], which is
    not among the sources, with the fields the facade sets ("two-layer
    64-unit MLP head"): [hid_sizes], [act] and [act_final]. *)
Module MLP.

Record t : Type := mk { hid_sizes : list nat; act : R -> R; act_final : bool }.

Definition Params : Type := list DenseParams.

(** Modelled from the spec: [MLP.__call__], one dense layer per hidden size,
    each followed by the activation, the last one only when [act_final] is
    set. *)
Fixpoint layers (f : R -> R) (final : bool) (hs : list nat) (ps : Params)
    (x : Array) : result Array :=
  match hs with
  | [] => Ok x
  | h :: hs' =>
      match ps with
      | [] => Err ScopeParamNotFoundError
      | p :: ps' =>
          x <- Dense h p x ;;
          let is_last_layer := match hs' with [] => true | _ => false end in
          let no_activation := is_last_layer && negb final in
          layers f final hs' ps' (if no_activation then x else amap f x)
      end
  end.

Definition call (self : t) (p : Params) (x : Array) : result Array :=
  layers (act self) (act_final self) (hid_sizes self) p x.

End MLP.

(** The stored variables of a value function, one entry per sub-module. *)
Record Params (GnnParams ZParams HeadParams RnnParams : Type) : Type := mkParams {
  p_gnn : GnnParams;
  p_z_encoder : ZParams;
  p_head : HeadParams;
  p_rnn : RnnParams;
  p_dense : DenseParams
}.

Arguments mkParams {GnnParams ZParams HeadParams RnnParams}.
Arguments p_gnn {GnnParams ZParams HeadParams RnnParams}.
Arguments p_z_encoder {GnnParams ZParams HeadParams RnnParams}.
Arguments p_head {GnnParams ZParams HeadParams RnnParams}.
Arguments p_rnn {GnnParams ZParams HeadParams RnnParams}.
Arguments p_dense {GnnParams ZParams HeadParams RnnParams}.

(** A recurrent wrapper class: [rnn(x, rnn_state) = (x', rnn_state')]. *)
Definition RnnCls (RnnParams : Type) : Type :=
  RnnParams -> Array -> Array -> result (Array * Array).

(** A recurrent wrapper that, for the state [s], treats its input row by
    row. *)
Definition rowwise_rnn {RnnParams : Type} (rnn : option (RnnCls RnnParams))
    (p : RnnParams) (s : Array) : Prop :=
  match rnn with
  | Some rnn => rowwise (fun x => '(y, _) <- rnn p x s ;; Ok y)
  | None => True
  end.

(** An encoder that, when one is configured, returns well-formed arrays. *)
Definition encoder_wf {ZParams : Type} (enc : option (ZEncoderCls ZParams))
    (p : ZParams) : Prop :=
  match enc with
  | Some enc => forall l y, enc p l = Ok y -> wf y
  | None => True
  end.

(** A head class. *)
Definition HeadCls (HeadParams : Type) : Type :=
  HeadParams -> Array -> result Array.

(** A GNN class called as [gnn(graph, node_type=.., n_type=..)]. *)
Definition GnnCls (GraphsTuple GnnParams : Type) : Type :=
  GnnParams -> GraphsTuple -> nat -> nat -> result Array.

Module StateFn.

Section Def.
Variables GraphsTuple GnnParams ZParams HeadParams RnnParams : Type.

Record t : Type := mk {
  gnn_cls : GnnParams -> GraphsTuple -> Array -> nat -> nat -> result (Array * Array);
  head_cls : HeadCls HeadParams
}.

Definition call (self : t) (p : Params GnnParams ZParams HeadParams RnnParams)
    (obs : GraphsTuple) (rnn_state : Array) (n_agents : nat) (get_value : bool)
    : result (Array * Array) :=
  (* get node features *)
  '(x, _) <- gnn_cls self (p_gnn p) obs rnn_state 0%nat n_agents ;;
  (* aggregate information using mean *)
  x <- mean0 false x ;;
  (* pass through head class *)
  x <- head_cls self (p_head p) x ;;
  x <- (if get_value then Dense 1 (p_dense p) x else Ok x) ;;
  Ok (x, rnn_state).

End Def.

Arguments mk {GraphsTuple GnnParams HeadParams}.
Arguments gnn_cls {GraphsTuple GnnParams HeadParams}.
Arguments head_cls {GraphsTuple GnnParams HeadParams}.
Arguments call {GraphsTuple GnnParams ZParams HeadParams RnnParams}.

End StateFn.

Module RStateFn.

Section Def.
Variables GraphsTuple GnnParams ZParams HeadParams RnnParams : Type.

Record t : Type := mk {
  gnn_cls : GnnCls GraphsTuple GnnParams;
  head_cls : HeadCls HeadParams;
  n_out : nat;
  rnn_cls : option (RnnCls RnnParams);
  z_encoder_cls : option (ZEncoderCls ZParams)
}.

Definition call (self : t) (p : Params GnnParams ZParams HeadParams RnnParams)
    (graph : GraphsTuple) (rnn_state : Array) (n_agents : nat) (z : option Array)
    : result (Array * Array) :=
  x <- gnn_cls self (p_gnn p) graph 0%nat n_agents ;;
  (* aggregate information using mean *)
  x <- mean0 true x ;;
  (* add z information *)
  x <- match z_encoder_cls self with
       | Some enc =>
           z_enc <- enc (p_z_encoder p) z ;;
           concatenate_last x z_enc
       | None => Ok x
       end ;;
  (* pass through head class *)
  x <- head_cls self (p_head p) x ;;
  (* pass through RNN *)
  '(x, rnn_state) <- match rnn_cls self with
                     | Some rnn => rnn (p_rnn p) x rnn_state
                     | None => Ok (x, rnn_state)
                     end ;;
  (* get value *)
  x <- Dense (n_out self) (p_dense p) x ;;
  Ok (x, rnn_state).

End Def.

Arguments mk {GraphsTuple GnnParams ZParams HeadParams RnnParams}.
Arguments gnn_cls {GraphsTuple GnnParams ZParams HeadParams RnnParams}.
Arguments head_cls {GraphsTuple GnnParams ZParams HeadParams RnnParams}.
Arguments n_out {GraphsTuple GnnParams ZParams HeadParams RnnParams}.
Arguments rnn_cls {GraphsTuple GnnParams ZParams HeadParams RnnParams}.
Arguments z_encoder_cls {GraphsTuple GnnParams ZParams HeadParams RnnParams}.
Arguments call {GraphsTuple GnnParams ZParams HeadParams RnnParams}.

End RStateFn.

Module DecRStateFn.

Section Def.
Variables GraphsTuple GnnParams ZParams HeadParams RnnParams : Type.

Record t : Type := mk {
  gnn_cls : GnnCls GraphsTuple GnnParams;
  head_cls : HeadCls HeadParams;
  n_out : nat;
  rnn_cls : option (RnnCls RnnParams);
  z_encoder_cls : option (ZEncoderCls ZParams);
  use_global_info : bool
}.

(** The statements of [__call__] that follow the GNN and precede the head:
    what the head is applied to, given the per-agent embeddings [x]. *)
Definition features (self : t) (p : Params GnnParams ZParams HeadParams RnnParams)
    (x : Array) (n_agents : nat) (z : option Array) : result Array :=
  x <- (if use_global_info self
        then x_global <- mean0 true x ;;
             concatenate_last x (tile_n1 n_agents x_global)
        else Ok x) ;;
  (* add z information *)
  match z_encoder_cls self with
  | Some enc =>
      z_enc <- enc (p_z_encoder p) z ;;
      concatenate_last x z_enc
  | None => Ok x
  end.

(** The statement "pass through RNN" of [__call__]. *)
Definition rnn_stage (self : t) (p : Params GnnParams ZParams HeadParams RnnParams)
    (x rnn_state : Array) : result (Array * Array) :=
  match rnn_cls self with
  | Some rnn => rnn (p_rnn p) x rnn_state
  | None => Ok (x, rnn_state)
  end.

Definition call (self : t) (p : Params GnnParams ZParams HeadParams RnnParams)
    (graph : GraphsTuple) (rnn_state : Array) (n_agents : nat) (z : option Array)
    : result (Array * Array) :=
  x <- gnn_cls self (p_gnn p) graph 0%nat n_agents ;;
  x <- features self p x n_agents z ;;
  (* pass through head class *)
  x <- head_cls self (p_head p) x ;;
  n0 <- shape_at x 0 ;;
  _ <- assert (Nat.eqb n0 n_agents) ;;
  (* pass through RNN *)
  '(x, rnn_state) <- rnn_stage self p x rnn_state ;;
  (* get value *)
  x <- Dense (n_out self) (p_dense p) x ;;
  _ <- assert (shape_eqb (shape x) [n_agents; n_out self]) ;;
  Ok (x, rnn_state).

End Def.

Arguments mk {GraphsTuple GnnParams ZParams HeadParams RnnParams}.
Arguments gnn_cls {GraphsTuple GnnParams ZParams HeadParams RnnParams}.
Arguments head_cls {GraphsTuple GnnParams ZParams HeadParams RnnParams}.
Arguments n_out {GraphsTuple GnnParams ZParams HeadParams RnnParams}.
Arguments rnn_cls {GraphsTuple GnnParams ZParams HeadParams RnnParams}.
Arguments z_encoder_cls {GraphsTuple GnnParams ZParams HeadParams RnnParams}.
Arguments use_global_info {GraphsTuple GnnParams ZParams HeadParams RnnParams}.
Arguments features {GraphsTuple GnnParams ZParams HeadParams RnnParams}.
Arguments rnn_stage {GraphsTuple GnnParams ZParams HeadParams RnnParams}.
Arguments call {GraphsTuple GnnParams ZParams HeadParams RnnParams}.

End DecRStateFn.

(** [flax.linen] recurrent cells, as far as the facade uses them. *)
Inductive CellCls : Type := LSTMCell | GRUCell.

(** [ft.partial(cell, features=..)] *)
Record RnnBase : Type := mkRnnBase { cell : CellCls; features : nat }.

(** What [initialize_carry] hands back: an array, or the LSTM's pair. *)
Inductive Carry : Type :=
| CarryArray (h : Array)
| CarryTuple (c h : Array).

Module ValueNet.

Section Def.
Variables GraphsTuple GnnParams RnnParams PRNGKey : Type.

(** [GraphTransformerGNN(msg_dim, out_dim, n_heads, n_layers)], of
    [defmarl/nn/gnn.py], and [RNN(rnn_cls, rnn_layers)], of
    [defmarl/nn/rnn.py]: not among the sources, taken as given. *)
Variable GraphTransformerGNN : nat -> nat -> nat -> nat -> GnnCls GraphsTuple GnnParams.
Variable RNN : RnnBase -> nat -> RnnCls RnnParams.

(** [cell.initialize_carry(key, input_shape)]: zeros of shape
    [input_shape[:-1] + (features,)], twice for the LSTM. *)
Definition cell_initialize_carry (b : RnnBase) (key : PRNGKey)
    (input_shape : list nat) : Carry :=
  let mem_shape := batch_dims input_shape ++ [features b] in
  match cell b with
  | GRUCell => CarryArray (zeros mem_shape)
  | LSTMCell => CarryTuple (zeros mem_shape) (zeros mem_shape)
  end.

Inductive Net : Type :=
| NetDec (net : DecRStateFn.t GraphsTuple GnnParams DenseParams MLP.Params RnnParams)
| NetR (net : RStateFn.t GraphsTuple GnnParams DenseParams MLP.Params RnnParams).

Record t : Type := mk {
  node_dim : nat;
  edge_dim : nat;
  n_agents : nat;
  n_out : nat;
  gnn_out_dim : nat;
  use_ef : bool;
  decompose : bool;
  use_global_info : bool;
  gnn : GnnCls GraphsTuple GnnParams;
  head : HeadCls MLP.Params;
  use_rnn : bool;
  z_encoder : option (ZEncoderCls DenseParams);
  rnn_base : option RnnBase;
  rnn : option (RnnCls RnnParams);
  net : Net
}.

(** [ValueNet.__init__]; the defaults of the source are [n_out=1],
    [use_rnn=True], [rnn_layers=1], [gnn_layers=1], [gnn_out_dim=16] and
    [False] for the remaining flags. *)
Definition init (node_dim edge_dim n_agents n_out : nat) (use_rnn : bool)
    (rnn_layers gnn_layers gnn_out_dim : nat)
    (use_lstm use_ef decompose use_global_info : bool) : t :=
  let gnn := GraphTransformerGNN 32 gnn_out_dim 3 gnn_layers in
  let head := MLP.call (MLP.mk [64; 64]%nat relu true) in
  let z_encoder :=
    if use_ef then Some (ZEncoder.call (ZEncoder.mk 8 1 1)) else None in
  let rnn_base :=
    if use_rnn then Some (mkRnnBase (if use_lstm then LSTMCell else GRUCell) 64)
    else None in
  let rnn :=
    match rnn_base with
    | Some b => Some (RNN b rnn_layers)
    | None => None
    end in
  let net :=
    if use_rnn then
      if decompose
      then NetDec (DecRStateFn.mk gnn head n_out rnn z_encoder use_global_info)
      else NetR (RStateFn.mk gnn head n_out rnn z_encoder)
    else
      if decompose
      then NetDec (DecRStateFn.mk gnn head n_out None z_encoder use_global_info)
      else NetR (RStateFn.mk gnn head n_out None z_encoder) in
  mk node_dim edge_dim n_agents n_out gnn_out_dim use_ef decompose
     use_global_info gnn head use_rnn z_encoder rnn_base rnn net.

Definition initialize_carry (self : t) (key : PRNGKey) : result Carry :=
  if use_rnn self
  then match rnn_base self with
       | Some b => Ok (cell_initialize_carry b key [gnn_out_dim self])
       | None => Err AttributeError
       end
  else Ok (CarryArray (zeros [gnn_out_dim self])).

(** [self.net.apply(params, ...)] *)
Definition apply (n : Net) (params : Params GnnParams DenseParams MLP.Params RnnParams)
    (obs : GraphsTuple) (rnn_state : Array) (n_agents : nat) (z : option Array)
    : result (Array * Array) :=
  match n with
  | NetDec d => DecRStateFn.call d params obs rnn_state n_agents z
  | NetR r => RStateFn.call r params obs rnn_state n_agents z
  end.

Definition get_value (self : t) (params : Params GnnParams DenseParams MLP.Params RnnParams)
    (obs : GraphsTuple) (rnn_state : Array) (z : option Array)
    : result (Array * Array) :=
  '(values, rnn_state) <- apply (net self) params obs rnn_state (n_agents self) z ;;
  Ok (values, rnn_state).

End Def.

Arguments init {GraphsTuple GnnParams RnnParams}.
Arguments initialize_carry {GraphsTuple GnnParams RnnParams PRNGKey}.
Arguments get_value {GraphsTuple GnnParams RnnParams}.
Arguments apply {GraphsTuple GnnParams RnnParams}.
Arguments net {GraphsTuple GnnParams RnnParams}.
Arguments n_agents {GraphsTuple GnnParams RnnParams}.
Arguments n_out {GraphsTuple GnnParams RnnParams}.
Arguments gnn_out_dim {GraphsTuple GnnParams RnnParams}.
Arguments use_rnn {GraphsTuple GnnParams RnnParams}.
Arguments use_ef {GraphsTuple GnnParams RnnParams}.
Arguments decompose {GraphsTuple GnnParams RnnParams}.
Arguments NetDec {GraphsTuple GnnParams RnnParams}.
Arguments NetR {GraphsTuple GnnParams RnnParams}.

End ValueNet.

(** ** data.py *)

Module Rollout.

Section Def.
Variable GraphsTuple : Type.

Record t : Type := mk {
  graph : GraphsTuple;
  actions : Array;
  rnn_states : Array;
  rewards : Array;
  costs : Array;
  dones : Array;
  log_pis : Array;
  next_graph : GraphsTuple;
  zs : option Array;
  z_global : option Array
}.

Definition length (self : t) : result nat := shape_at (rewards self) 0.

Definition time_horizon (self : t) : result nat := shape_at (rewards self) 1.

Definition num_agents (self : t) : result nat := shape_at (rewards self) 2.

Definition n_data (self : t) : result nat :=
  l <- length self ;;
  h <- time_horizon self ;;
  Ok (l * h)%nat.

End Def.

Arguments mk {GraphsTuple}.
Arguments rewards {GraphsTuple}.
Arguments length {GraphsTuple}.
Arguments time_horizon {GraphsTuple}.
Arguments num_agents {GraphsTuple}.
Arguments n_data {GraphsTuple}.

End Rollout.

(** ** Concrete modules and inputs

    Small instances of the classes the heads are generic in, and inputs to
    run the networks on. *)

(** An array of shape [s] filled with [v]. *)
Definition full (s : list nat) (v : R) : Array := mkArray s (repeat v (size_of s)).

(** A GNN whose embeddings are the agent-node features stored in the graph. *)
Definition FeatureGNN : GnnCls Array unit := fun _ g _ _ => Ok g.

(** The same, with the signature [StateFn] calls its GNN with. *)
Definition FeatureStateGNN (_ : unit) (g rnn_state : Array) (_ _ : nat)
    : result (Array * Array) :=
  Ok (g, rnn_state).

(** A one-layer linear GNN: it checks that the graph holds [n_type] agent
    nodes and projects their features to [out_dim]. *)
Definition LinearGNN (msg_dim out_dim n_heads n_layers : nat)
    : GnnCls Array DenseParams :=
  fun p g _ n_type =>
    match shape g with
    | [n; _] => if Nat.eqb n n_type then Dense out_dim p g else Err ValueError
    | _ => Err ValueError
    end.

(** A recurrent wrapper that adds the state to its input, row by row, and
    carries the sum. *)
Definition AddRNN (_ : RnnBase) (_ : nat) : RnnCls unit :=
  fun _ x s =>
    if shape_eqb (shape x) (shape s)
    then let y := mkArray (shape x) (vadd (data x) (data s)) in Ok (y, y)
    else Err TypeError.

Definition rollout0 : Rollout.t unit :=
  Rollout.mk tt (full [2; 3; 4; 2]%nat 0) (full [2; 3; 4; 8]%nat 0)
    (full [2; 3; 4]%nat 1) (full [2; 3; 4]%nat 0) (full [2; 3]%nat 0)
    (full [2; 3; 4]%nat 0) tt None None.

(** A centralized value function over [FeatureStateGNN] with a head of
    hidden sizes [(3, 2)], its stored variables, and a graph of four agents
    with two features each. *)
Definition stateFn0 : StateFn.t Array unit MLP.Params :=
  StateFn.mk FeatureStateGNN (MLP.call (MLP.mk [3; 2]%nat relu true)).

Definition stateParams0 : Params unit unit MLP.Params unit :=
  mkParams tt tt
    [mkDense (full [2; 3]%nat 1) (full [3]%nat 0);
     mkDense (full [3; 2]%nat 1) (full [2]%nat 0)]
    tt
    (mkDense (full [2; 1]%nat 1) (full [1]%nat 0)).

Definition obs0 : Array := full [4; 2]%nat 1.

Definition rnn_state0 : Array := full [1; 1; 4]%nat 0.

(** The latent encoder as the facade configures it, stored variables for
    it, and one latent scalar for each of four agents. *)
Definition zEncoder0 : ZEncoder.t := ZEncoder.mk 8 1 1.

Definition zParams0 : DenseParams :=
  mkDense (full [1; 8]%nat (1 / 2)) (full [8]%nat 0).

Definition z0 : Array := mkArray [4; 1]%nat [0; 1; 2; 3].

(** The facade over [LinearGNN] and [AddRNN], built with [n_agents=4],
    [use_rnn=False], [use_ef=False], [decompose=False] and the defaults of
    the source for the rest ([n_out=1], [gnn_out_dim=16]); stored variables
    that fit it. *)
Definition valueNet0 : ValueNet.t Array DenseParams unit :=
  ValueNet.init LinearGNN AddRNN 2 1 4 1 false 1 1 16 false false false false.

Definition valueParams0 : Params DenseParams DenseParams MLP.Params unit :=
  mkParams
    (mkDense (full [2; 16]%nat 1) (full [16]%nat 0))
    zParams0
    [mkDense (full [16; 64]%nat 1) (full [64]%nat 0);
     mkDense (full [64; 64]%nat 1) (full [64]%nat 0)]
    tt
    (mkDense (full [64; 1]%nat 1) (full [1]%nat 0)).

(** A base network of one dense unit, and one that first asserts the
    feature width it was built for. *)
Definition DenseBase : DenseParams -> Array -> result Array := Dense 1.

Definition CheckedBase (width : nat) (p : DenseParams) (feat : Array)
    : result Array :=
  _ <- assert (Nat.eqb (last_dim (shape feat)) width) ;;
  Dense 1 p feat.

(** The wrapper around each of them with the facade's latent encoder, stored
    variables for a fused width of 5 + 8, observations of four and of three
    agents with five features, a rank-1 observation, and a latent scalar per
    agent. *)
Definition efWrapper0 : EFWrapper.t DenseParams DenseParams :=
  EFWrapper.mk DenseBase (ZEncoder.call zEncoder0).

Definition efWrapperChecked : EFWrapper.t DenseParams DenseParams :=
  EFWrapper.mk (CheckedBase 5) (ZEncoder.call zEncoder0).

Definition efParams0 : EFWrapper.Params DenseParams DenseParams :=
  EFWrapper.mkParams zParams0 (mkDense (full [13; 1]%nat 1) (full [1]%nat 0)).

Definition obs4x5 : Array := full [4; 5]%nat 1.
Definition obs3x5 : Array := full [3; 5]%nat 1.
Definition obs5 : Array := full [5]%nat 1.
Definition z4 : Array := mkArray [4]%nat [0; 1; 2; 3].

(** Decomposed heads over [FeatureGNN] with a head of hidden sizes [(3, 2)]:
    one conditioned on the latent, one fusing the global embedding; stored
    variables for them; embeddings of two and of three agents; a single
    latent row. *)
Definition decLatent : DecRStateFn.t Array unit DenseParams MLP.Params unit :=
  DecRStateFn.mk FeatureGNN (MLP.call (MLP.mk [3; 2]%nat relu true)) 1 None
    (Some (ZEncoder.call zEncoder0)) false.

Definition decGlobal : DecRStateFn.t Array unit DenseParams MLP.Params unit :=
  DecRStateFn.mk FeatureGNN (MLP.call (MLP.mk [3; 2]%nat relu true)) 1 None
    None true.

Definition decPlain : DecRStateFn.t Array unit DenseParams MLP.Params unit :=
  DecRStateFn.mk FeatureGNN (MLP.call (MLP.mk [3; 2]%nat relu true)) 1 None
    None false.

Definition decParams (width : nat) : Params unit DenseParams MLP.Params unit :=
  mkParams tt zParams0
    [mkDense (full [width; 3]%nat 1) (full [3]%nat 0);
     mkDense (full [3; 2]%nat 1) (full [2]%nat 0)]
    tt
    (mkDense (full [2; 1]%nat 1) (full [1]%nat 0)).

Definition emb2x2 : Array := mkArray [2; 2]%nat [1; 2; 3; 4].
Definition emb3x2 : Array := mkArray [3; 2]%nat [1; 2; 3; 4; 5; 6].
Definition z1x1 : Array := mkArray [1; 1]%nat [2].
Definition z2x1 : Array := mkArray [2; 1]%nat [2; 3].

(** A decomposed head that fuses the global embedding, with a head of one
    hidden unit, stored variables of weight one, and the embeddings of two
    agents before and after the first agent's is changed from 1 to 3. *)
Definition decGlobal1 : DecRStateFn.t Array unit unit MLP.Params unit :=
  DecRStateFn.mk FeatureGNN (MLP.call (MLP.mk [1]%nat relu true)) 1 None None true.

Definition decGlobal1Params : Params unit unit MLP.Params unit :=
  mkParams tt tt [mkDense (mkArray [2; 1]%nat [1; 1]) (mkArray [1]%nat [0])] tt
    (mkDense (mkArray [1; 1]%nat [1]) (mkArray [1]%nat [0])).

Definition emb_before : Array := mkArray [2; 1]%nat [1; 1].
Definition emb_after : Array := mkArray [2; 1]%nat [3; 1].

(** A decomposed head without the global embedding, with the facade's latent
    encoder and the row-by-row recurrent wrapper. *)
Definition decLocal : DecRStateFn.t Array unit DenseParams MLP.Params unit :=
  DecRStateFn.mk FeatureGNN (MLP.call (MLP.mk [3; 2]%nat relu true)) 1
    (Some (AddRNN (mkRnnBase GRUCell 2) 1)) (Some (ZEncoder.call zEncoder0)) false.

Definition emb2x2' : Array := mkArray [2; 2]%nat [7; 8; 3; 4].
Definition carry2x2 : Array := full [2; 2]%nat 0.

(** ** Further notions and inputs *)

(** The width of the features the facade's head is applied to: the GNN's
    output width, doubled when the decomposed head fuses the global
    embedding, plus the 8 features of the latent encoding when the latent is
    used. *)
Definition head_in_dim (gnn_out_dim : nat) (use_ef decompose use_global_info : bool)
    : nat :=
  ((if decompose && use_global_info then gnn_out_dim + gnn_out_dim else gnn_out_dim)
   + (if use_ef then 8 else 0))%nat.

(** The number of rows of the value: one per agent when decomposed, one
    pooled row otherwise. *)
Definition value_rows (n_agents : nat) (decompose : bool) : nat :=
  if decompose then n_agents else 1%nat.

(** When the latent is used: a latent of [rows] rows, and stored variables of
    the encoder that fit its width. *)
Definition latent_fits (use_ef : bool) (rows : nat) (z : option Array)
    (p : DenseParams) : Prop :=
  if use_ef
  then exists (zz : Array) (k : nat),
         z = Some zz /\ shape zz = [rows; k] /\ fits_dense k 8 p
  else True.

(** The facade over [LinearGNN], decomposed, fusing the global embedding and
    conditioned on the latent, without recurrence; stored variables that fit
    it (a head input of 16 + 16 + 8 features); a latent scalar per agent. *)
Definition valueNetDec : ValueNet.t Array DenseParams unit :=
  ValueNet.init LinearGNN AddRNN 2 1 4 1 false 1 1 16 false true true true.

Definition valueParamsDec : Params DenseParams DenseParams MLP.Params unit :=
  mkParams
    (mkDense (full [2; 16]%nat 1) (full [16]%nat 0))
    zParams0
    [mkDense (full [40; 64]%nat 1) (full [64]%nat 0);
     mkDense (full [64; 64]%nat 1) (full [64]%nat 0)]
    tt
    (mkDense (full [64; 1]%nat 1) (full [1]%nat 0)).

(** The facade over [LinearGNN] with the latent in use, centralized and
    recurrent. *)
Definition valueNetEf : ValueNet.t Array DenseParams unit :=
  ValueNet.init LinearGNN AddRNN 2 1 4 1 true 1 1 16 false true false false.

(** A decomposed head that fuses the global embedding and is conditioned on
    the latent, with the row-by-row recurrent wrapper; a second latent that
    differs from [z2x1] in the first agent's row only. *)
Definition decFull : DecRStateFn.t Array unit DenseParams MLP.Params unit :=
  DecRStateFn.mk FeatureGNN (MLP.call (MLP.mk [3; 2]%nat relu true)) 1
    (Some (AddRNN (mkRnnBase GRUCell 2) 1)) (Some (ZEncoder.call zEncoder0)) true.

Definition z2x1' : Array := mkArray [2; 1]%nat [5; 3].

(** ** The latent encoder on floating-point values

    Where a claim is about the range of numbers, the reading of floats as
    real numbers is not enough: a float may be a NaN or an infinity.  Here
    a float is one of the two, or a finite number, and the arithmetic is
    IEEE 754's on the special values; what the format does to a finite
    result (rounding it, or overflowing to an infinity) is left to the
    function [round], so that the development holds for [float32] as for any
    other format.  The sign of a zero is not kept: a zero divisor counts as
    positive. *)
Module IEEE.

Inductive float : Type :=
| NaN
| Inf (negative : bool)
| Fin (r : R).

Definition negative_real (r : R) : bool := if Rlt_dec r 0 then true else false.

Definition zero_real (r : R) : bool := if Req_dec_T r 0 then true else false.

(** A finite number of the interval [[-1, 1]]. *)
Definition in_unit (x : float) : Prop := exists q : R, x = Fin q /\ -1 <= q <= 1.

(** Rounding is monotone and -1 and 1 are numbers of the format: a real of
    [[-1, 1]] rounds to a finite number of [[-1, 1]]. *)
Definition round_unit (round : R -> float) : Prop :=
  forall r : R, -1 <= r <= 1 -> in_unit (round r).

Section Arithmetic.
Variable round : R -> float.

Definition opp (x : float) : float :=
  match x with
  | NaN => NaN
  | Inf s => Inf (negb s)
  | Fin a => Fin (- a)
  end.

Definition add (x y : float) : float :=
  match x with
  | NaN => NaN
  | Inf s =>
      match y with
      | NaN => NaN
      | Inf t => if Bool.eqb s t then Inf s else NaN
      | Fin _ => Inf s
      end
  | Fin a =>
      match y with
      | NaN => NaN
      | Inf t => Inf t
      | Fin b => round (a + b)
      end
  end.

Definition sub (x y : float) : float := add x (opp y).

Definition mul (x y : float) : float :=
  match x with
  | NaN => NaN
  | Inf s =>
      match y with
      | NaN => NaN
      | Inf t => Inf (xorb s t)
      | Fin b => if zero_real b then NaN else Inf (xorb s (negative_real b))
      end
  | Fin a =>
      match y with
      | NaN => NaN
      | Inf t => if zero_real a then NaN else Inf (xorb (negative_real a) t)
      | Fin b => round (a * b)
      end
  end.

Definition div (x y : float) : float :=
  match x with
  | NaN => NaN
  | Inf s =>
      match y with
      | NaN => NaN
      | Inf _ => NaN
      | Fin b => Inf (xorb s (negative_real b))
      end
  | Fin a =>
      match y with
      | NaN => NaN
      | Inf _ => Fin 0
      | Fin b =>
          if zero_real b
          then if zero_real a then NaN else Inf (negative_real a)
          else round (a / b)
      end
  end.

Definition tanh (x : float) : float :=
  match x with
  | NaN => NaN
  | Inf s => Fin (if s then -1 else 1)
  | Fin a => round (Rtrigo_def.tanh a)
  end.

End Arithmetic.

End IEEE.

(** Arrays of floats, and [flax.linen.Dense] on them, as [Array] and [Dense]
    above. *)
Record FArray : Type := mkFArray { fshape : list nat; fdata : list IEEE.float }.

Fixpoint fchunks (w n : nat) (l : list IEEE.float) : list (list IEEE.float) :=
  match n with
  | O => []
  | S n' => firstn w l :: fchunks w n' (skipn w l)
  end.

Definition ffeature_rows (a : FArray) : list (list IEEE.float) :=
  fchunks (last_dim (fshape a)) (size_of (batch_dims (fshape a))) (fdata a).

Record FDenseParams : Type := mkFDense { fkernel : FArray; fbias : FArray }.

Definition ffits_dense (din dout : nat) (p : FDenseParams) : Prop :=
  fshape (fkernel p) = [din; dout] /\ fshape (fbias p) = [dout].

(** Real arrays as arrays of finite floats. *)
Definition to_float (a : Array) : FArray :=
  mkFArray (shape a) (map IEEE.Fin (data a)).

Definition to_float_params (p : DenseParams) : FDenseParams :=
  mkFDense (to_float (kernel p)) (to_float (bias p)).

Section FloatLayers.
Variable round : R -> IEEE.float.

(** The products of a dot product are summed from the last one back; the
    order is the backend's, and the range of the encoding and its NaNs below
    are the same in any order. *)
Fixpoint fdot(u v : list IEEE.float) : IEEE.float :=
  match u, v with
  | x :: u', y :: v' => IEEE.add round (IEEE.mul round x y) (fdot u' v')
  | _, _ => IEEE.Fin 0
  end.

Definition fcolumn (din dout j : nat) (k : list IEEE.float) : list IEEE.float :=
  map (fun r => nth j r (IEEE.Fin 0)) (fchunks dout din k).

Definition fdense_row (din dout : nat) (p : FDenseParams) (x : list IEEE.float)
    : list IEEE.float :=
  map (fun j => IEEE.add round (fdot x (fcolumn din dout j (fdata (fkernel p))))
                         (nth j (fdata (fbias p)) (IEEE.Fin 0)))
      (seq 0 dout).

Definition FDense (features : nat) (p : FDenseParams) (x : FArray) : result FArray :=
  match fshape x with
  | [] => Err IndexError
  | _ =>
      let din := last_dim (fshape x) in
      if shape_eqb (fshape (fkernel p)) [din; features]
         && shape_eqb (fshape (fbias p)) [features]
      then Ok (mkFArray (batch_dims (fshape x) ++ [features])
                        (concat (map (fdense_row din features p) (ffeature_rows x))))
      else Err ScopeParamShapeError
  end.

(** [ZEncoder.__call__] on floats; [z_mean] and [z_scale] are finite. *)
Definition ZEncoder_fcall (self : ZEncoder.t) (p : FDenseParams) (z : option FArray)
    : result FArray :=
  match z with
  | None => Err TypeError
  | Some z =>
      (* 1: Normalize z. *)
      let norm_z :=
        mkFArray (fshape z)
          (map (fun v => IEEE.div round
                           (IEEE.sub round v (IEEE.Fin (ZEncoder.z_mean self)))
                           (IEEE.Fin (ZEncoder.z_scale self)))
               (fdata z)) in
      (* 2: Encode it. *)
      enc_z <- FDense (ZEncoder.nz self) p norm_z ;;
      Ok (mkFArray (fshape enc_z) (map (IEEE.tanh round) (fdata enc_z)))
  end.

End FloatLayers.

(** An encoder with [z_scale = 0], stored variables for it, and the latent
    [z_mean]; a latent of four agents whose first entry is a NaN. *)
Definition zEncoderScale0 : ZEncoder.t := ZEncoder.mk 1 0 0.

Definition fParams1 : FDenseParams :=
  mkFDense (mkFArray [1; 1]%nat [IEEE.Fin 1]) (mkFArray [1]%nat [IEEE.Fin 0]).

Definition fz_mean : FArray := mkFArray [1; 1]%nat [IEEE.Fin 0].

Definition fz_nan : FArray :=
  mkFArray [4; 1]%nat [IEEE.NaN; IEEE.Fin 1; IEEE.Fin 2; IEEE.Fin 3].

(** A format without rounding whose largest number is [m]: beyond it a
    result overflows to an infinity.  An encoder with [z_mean = 0] and
    [z_scale = 1], a latent of two features and a kernel, all at the largest
    number of the format with [m = 4]. *)
Definition round_max (m r : R) : IEEE.float :=
  if Rlt_dec m r then IEEE.Inf false
  else if Rlt_dec r (- m) then IEEE.Inf true
  else IEEE.Fin r.

Definition zEncoderPlain : ZEncoder.t := ZEncoder.mk 1 0 1.

Definition fParamsBig : FDenseParams :=
  mkFDense (mkFArray [2; 1]%nat [IEEE.Fin 4; IEEE.Fin (- 4)])
           (mkFArray [1]%nat [IEEE.Fin 0]).

Definition fz_big : FArray := mkFArray [1; 2]%nat [IEEE.Fin 4; IEEE.Fin 4].

(** * Properties *)

(** ** Shapes *)

Lemma shape_eqb_eq (s t : list nat) : shape_eqb s t = true <-> s = t.
Proof.
  revert t; induction s as [|m s IH]; intros [|n t]; simpl; split;
    try congruence; try reflexivity.
  - intros H. apply andb_prop in H as [Hm Hs].
    apply Nat.eqb_eq in Hm. apply IH in Hs. congruence.
  - intros H. injection H as -> ->.
    rewrite Nat.eqb_refl. simpl. now apply IH.
Qed.

Lemma shape_eqb_refl (s : list nat) : shape_eqb s s = true.
Proof. now apply shape_eqb_eq. Qed.

Lemma batch_dims_app (pre : list nat) (d : nat) : batch_dims (pre ++ [d]) = pre.
Proof. unfold batch_dims. apply removelast_last. Qed.

Lemma last_dim_app (pre : list nat) (d : nat) : last_dim (pre ++ [d]) = d.
Proof. unfold last_dim. apply last_last. Qed.

Lemma bind_ok {A B : Type} (r : result A) (k : A -> result B) (b : B) :
  bind r k = Ok b -> exists a, r = Ok a /\ k a = Ok b.
Proof. destruct r as [a|e]; simpl; [eauto | discriminate]. Qed.

Lemma assert_ok (c : bool) (u : unit) : assert c = Ok u -> c = true.
Proof. destruct c; [reflexivity | discriminate]. Qed.

(** Inverts a successful run of binds, asserts and [Ok]s in hypothesis [H]. *)
Ltac ok_inv H :=
  match type of H with
  | bind _ _ = Ok _ =>
      let a := fresh "x" in
      let H1 := fresh "E" in
      apply bind_ok in H as (a & H1 & H); ok_inv H
  | Ok _ = Ok _ => injection H as H; subst
  | _ => idtac
  end.

Lemma Dense_ok (f : nat) (p : DenseParams) (x y : Array) :
  Dense f p x = Ok y ->
  shape x <> []
  /\ shape (kernel p) = [last_dim (shape x); f]
  /\ shape (bias p) = [f]
  /\ y = mkArray (batch_dims (shape x) ++ [f])
                 (concat (map (dense_row (last_dim (shape x)) f p) (feature_rows x))).
Proof.
  unfold Dense. destruct (shape x) as [|n s] eqn:Hs; [discriminate|].
  destruct (shape_eqb (shape (kernel p)) _ && shape_eqb (shape (bias p)) _) eqn:Hc;
    [|discriminate].
  apply andb_prop in Hc as [Hk Hb].
  apply shape_eqb_eq in Hk, Hb.
  intros H. injection H as <-. repeat split; congruence.
Qed.

Lemma Dense_shape (f : nat) (p : DenseParams) (x y : Array) :
  Dense f p x = Ok y -> shape y = batch_dims (shape x) ++ [f].
Proof. intros H. apply Dense_ok in H as (_ & _ & _ & ->). reflexivity. Qed.

Lemma Dense_total (f : nat) (p : DenseParams) (x : Array) :
  shape x <> [] ->
  shape (kernel p) = [last_dim (shape x); f] ->
  shape (bias p) = [f] ->
  exists y, Dense f p x = Ok y.
Proof.
  intros Hx Hk Hb. unfold Dense.
  destruct (shape x) as [|n s] eqn:Hs; [congruence|].
  rewrite Hk, Hb, !shape_eqb_refl. simpl. eauto.
Qed.

Lemma Dense_fits (f din : nat) (pre : list nat) (p : DenseParams) (x : Array) :
  shape x = pre ++ [din] ->
  fits_dense din f p ->
  exists y, Dense f p x = Ok y /\ shape y = pre ++ [f].
Proof.
  intros Hx [Hk Hb].
  destruct (Dense_total f p x) as [y Hy].
  - rewrite Hx. now destruct pre.
  - now rewrite Hx, last_dim_app.
  - exact Hb.
  - exists y. split; [exact Hy|].
    apply Dense_shape in Hy. now rewrite Hy, Hx, batch_dims_app.
Qed.

(** ** The rollout record *)

(** C4: for a rollout whose rewards have shape
    [(length, time_horizon, num_agents, ...)], the four derived properties
    are the first three dimensions and the product of the first two; and two
    rollouts whose rewards have the same shape agree on all four, whatever
    their other fields hold. *)
Theorem Rollout_derived_properties (G : Type) (r : Rollout.t G)
    (l h n : nat) (rest : list nat) :
  shape (Rollout.rewards r) = l :: h :: n :: rest ->
  (Rollout.length r = Ok l
   /\ Rollout.time_horizon r = Ok h
   /\ Rollout.num_agents r = Ok n
   /\ Rollout.n_data r = Ok (l * h)%nat)
  /\ (forall r' : Rollout.t G,
        shape (Rollout.rewards r') = shape (Rollout.rewards r) ->
        Rollout.length r' = Rollout.length r
        /\ Rollout.time_horizon r' = Rollout.time_horizon r
        /\ Rollout.num_agents r' = Rollout.num_agents r
        /\ Rollout.n_data r' = Rollout.n_data r).
Proof.
  intros Hs. split.
  - unfold Rollout.n_data, Rollout.length, Rollout.time_horizon,
      Rollout.num_agents, shape_at.
    rewrite Hs. simpl. auto.
  - intros r' Hr'.
    unfold Rollout.n_data, Rollout.length, Rollout.time_horizon,
      Rollout.num_agents, shape_at.
    rewrite Hr'. auto.
Qed.

Lemma Rollout_derived_properties_witness :
  Rollout.length rollout0 = Ok 2%nat
  /\ Rollout.time_horizon rollout0 = Ok 3%nat
  /\ Rollout.num_agents rollout0 = Ok 4%nat
  /\ Rollout.n_data rollout0 = Ok 6%nat.
Proof.
  exact (proj1 (Rollout_derived_properties unit rollout0 2 3 4 [] eq_refl)).
Defined.

(** ** The facade *)

Section ValueNetFacts.
Variables GraphsTuple GnnParams RnnParams PRNGKey : Type.
Variable GraphTransformerGNN : nat -> nat -> nat -> nat -> GnnCls GraphsTuple GnnParams.
Variable RNN : RnnBase -> nat -> RnnCls RnnParams.

(** C7: a value network built with [use_rnn=False] answers
    [initialize_carry], for every key, with the all-zero array of shape
    [(gnn_out_dim,)]. *)
Theorem initialize_carry_without_rnn
    (node_dim edge_dim n_agents n_out rnn_layers gnn_layers gnn_out_dim : nat)
    (use_lstm use_ef decompose use_global_info : bool) (key : PRNGKey) :
  exists a : Array,
    ValueNet.initialize_carry
      (ValueNet.init GraphTransformerGNN RNN node_dim edge_dim n_agents n_out
         false rnn_layers gnn_layers gnn_out_dim use_lstm use_ef decompose
         use_global_info) key
    = Ok (CarryArray a)
    /\ shape a = [gnn_out_dim]
    /\ List.length (data a) = gnn_out_dim
    /\ Forall (fun v => v = 0) (data a).
Proof.
  exists (zeros [gnn_out_dim]). split; [reflexivity|].
  split; [reflexivity|]. simpl. rewrite Nat.mul_1_r. split.
  - apply repeat_length.
  - apply Forall_forall. intros v Hv. now apply repeat_spec in Hv.
Qed.

(** C10: a value network built with [use_ef=False] returns the same
    [(value, recurrent state)] for any two latent arguments, [None] included;
    for each of the two heads it can hold, built without an encoder, the
    call does not depend on the latent either. *)
Theorem get_value_independent_of_z_without_ef
    (node_dim edge_dim n_agents n_out rnn_layers gnn_layers gnn_out_dim : nat)
    (use_rnn use_lstm decompose use_global_info : bool)
    (params : Params GnnParams DenseParams MLP.Params RnnParams)
    (obs : GraphsTuple) (rnn_state : Array) (z1 z2 : option Array) :
  let self := ValueNet.init GraphTransformerGNN RNN node_dim edge_dim n_agents
                n_out use_rnn rnn_layers gnn_layers gnn_out_dim use_lstm false
                decompose use_global_info in
  ValueNet.get_value self params obs rnn_state z1
  = ValueNet.get_value self params obs rnn_state z2
  /\ (forall (gnn : GnnCls GraphsTuple GnnParams) (head : HeadCls MLP.Params)
             (rnn : option (RnnCls RnnParams)) (n : nat),
        RStateFn.call (RStateFn.mk gnn head n_out rnn None) params obs rnn_state n z1
        = RStateFn.call (RStateFn.mk gnn head n_out rnn None) params obs rnn_state n z2)
  /\ (forall (gnn : GnnCls GraphsTuple GnnParams) (head : HeadCls MLP.Params)
             (rnn : option (RnnCls RnnParams)) (global : bool) (n : nat),
        DecRStateFn.call (DecRStateFn.mk gnn head n_out rnn None global) params obs
          rnn_state n z1
        = DecRStateFn.call (DecRStateFn.mk gnn head n_out rnn None global) params obs
            rnn_state n z2).
Proof.
  split; [|split].
  - destruct use_rnn, decompose; reflexivity.
  - reflexivity.
  - reflexivity.
Qed.

End ValueNetFacts.

(** ** The centralized value function *)

Lemma MLP_layers_shape (f : R -> R) (final : bool) (hs : list nat) :
  forall (ps : MLP.Params) (x y : Array),
    hs <> [] ->
    MLP.layers f final hs ps x = Ok y ->
    shape x <> [] /\ shape y = batch_dims (shape x) ++ [last hs 0%nat].
Proof.
  induction hs as [|h hs IH]; intros ps x y Hne H; [congruence|].
  simpl in H. destruct ps as [|p ps]; [discriminate|].
  apply bind_ok in H as (x1 & Hd & H).
  pose proof (Dense_ok _ _ _ _ Hd) as (Hx & _ & _ & Hx1).
  split; [exact Hx|].
  destruct hs as [|h' hs].
  - simpl in H. injection H as <-.
    destruct (negb final); simpl; rewrite Hx1; reflexivity.
  - apply IH in H; [|discriminate]. destruct H as [_ H].
    rewrite H. simpl andb. cbv iota.
    change (shape (amap f x1)) with (shape x1).
    rewrite Hx1. simpl shape. rewrite batch_dims_app. reflexivity.
Qed.

Section StateFnFacts.
Variables GraphsTuple GnnParams ZParams HeadParams RnnParams : Type.

(** C8: whatever [get_value] is, a call of the centralized value function
    that returns hands back, as second component, the recurrent state it was
    given. *)
Theorem StateFn_call_returns_rnn_state
    (self : StateFn.t GraphsTuple GnnParams HeadParams)
    (p : Params GnnParams ZParams HeadParams RnnParams)
    (obs : GraphsTuple) (rnn_state : Array) (n_agents : nat) (get_value : bool)
    (x rnn_state' : Array) :
  StateFn.call self p obs rnn_state n_agents get_value = Ok (x, rnn_state') ->
  rnn_state' = rnn_state.
Proof.
  unfold StateFn.call. intros H.
  apply bind_ok in H as ([x0 s0] & _ & H).
  ok_inv H. congruence.
Qed.

(** C9: a call of the centralized value function that returns has run the
    GNN, the mean over the agents and the head; with [get_value=False] it
    returns the head's output as it is, so the output width is the head's,
    which for an MLP head is its last hidden size; with [get_value=True] it
    returns the one-unit dense projection of the head's output, whose last
    dimension is 1. *)
Theorem StateFn_output_width
    (self : StateFn.t GraphsTuple GnnParams HeadParams)
    (p : Params GnnParams ZParams HeadParams RnnParams)
    (obs : GraphsTuple) (rnn_state : Array) (n_agents : nat) (get_value : bool)
    (x rnn_state' : Array) :
  StateFn.call self p obs rnn_state n_agents get_value = Ok (x, rnn_state') ->
  exists e s m h : Array,
    StateFn.gnn_cls self (p_gnn p) obs rnn_state 0%nat n_agents = Ok (e, s)
    /\ mean0 false e = Ok m
    /\ StateFn.head_cls self (p_head p) m = Ok h
    /\ (if get_value
        then Dense 1 (p_dense p) h = Ok x
             /\ shape x <> [] /\ last_dim (shape x) = 1%nat
        else x = h)
    /\ (forall (mlp : MLP.t) (ps : MLP.Params),
          StateFn.head_cls self (p_head p) = MLP.call mlp ps ->
          MLP.hid_sizes mlp <> [] ->
          last_dim (shape h) = last (MLP.hid_sizes mlp) 0%nat).
Proof.
  intros H. unfold StateFn.call in H.
  apply bind_ok in H as ([e s] & Hg & H).
  apply bind_ok in H as (m & Hm & H).
  apply bind_ok in H as (h & Hh & H).
  apply bind_ok in H as (y & Hv & H).
  injection H as <- _.
  exists e, s, m, h. repeat (split; [assumption|]). split.
  - destruct get_value.
    + split; [exact Hv|].
      apply Dense_shape in Hv. rewrite Hv, last_dim_app. split; [|reflexivity].
      now destruct (batch_dims (shape h)).
    + now injection Hv.
  - intros mlp ps Hcls Hne. rewrite Hcls in Hh.
    apply MLP_layers_shape in Hh as [_ Hh]; [|exact Hne].
    now rewrite Hh, last_dim_app.
Qed.

End StateFnFacts.

Lemma StateFn_call_returns_rnn_state_witness :
  exists x : Array,
    StateFn.call stateFn0 stateParams0 obs0 rnn_state0 4 true = Ok (x, rnn_state0).
Proof.
  assert (H : exists x s, StateFn.call stateFn0 stateParams0 obs0 rnn_state0 4 true
                          = Ok (x, s)).
  { eexists. eexists. reflexivity. }
  destruct H as (x & s & H). exists x.
  rewrite (StateFn_call_returns_rnn_state _ _ unit _ unit _ _ _ _ _ _ _ _ H) in H.
  exact H.
Defined.

Lemma StateFn_output_width_witness :
  (exists x s : Array,
      StateFn.call stateFn0 stateParams0 obs0 rnn_state0 4 false = Ok (x, s)
      /\ last_dim (shape x) = 2%nat)
  /\ (exists x s : Array,
        StateFn.call stateFn0 stateParams0 obs0 rnn_state0 4 true = Ok (x, s)
        /\ last_dim (shape x) = 1%nat).
Proof.
  split.
  - eexists. eexists. split; [reflexivity|].
    destruct (StateFn_output_width Array unit unit MLP.Params unit stateFn0
                stateParams0 obs0 rnn_state0 4 false _ _ eq_refl)
      as (e & s & m & h & _ & _ & _ & Hx & Hw).
    rewrite Hx.
    refine (Hw (MLP.mk [3; 2]%nat relu true) (p_head stateParams0) eq_refl _).
    discriminate.
  - eexists. eexists. split; [reflexivity|].
    destruct (StateFn_output_width Array unit unit MLP.Params unit stateFn0
                stateParams0 obs0 rnn_state0 4 true _ _ eq_refl)
      as (e & s & m & h & _ & _ & _ & Hx & _).
    exact (proj2 (proj2 Hx)).
Defined.

(** ** The latent encoder *)

Lemma tanh_bounds (x : R) : -1 <= tanh x <= 1.
Proof.
  unfold tanh, sinh, cosh.
  pose proof (exp_pos x) as Ha. pose proof (exp_pos (- x)) as Hb.
  set (a := exp x) in *. set (b := exp (- x)) in *.
  replace ((a - b) / 2 / ((a + b) / 2)) with ((a - b) / (a + b))
    by (field; lra).
  assert (Ht : 0 < / (a + b)) by (apply Rinv_0_lt_compat; lra).
  assert (H1 : (a + b) * / (a + b) = 1) by (field; lra).
  unfold Rdiv. set (t := / (a + b)) in *.
  assert (Hat : 0 < a * t) by (apply Rmult_lt_0_compat; assumption).
  assert (Hbt : 0 < b * t) by (apply Rmult_lt_0_compat; assumption).
  split; nra.
Qed.

Lemma fchunks_map (g : IEEE.float -> IEEE.float) (w n : nat) :
  forall l : list IEEE.float,
    fchunks w n (map g l) = map (map g) (fchunks w n l).
Proof.
  induction n as [|n IH]; intros l; simpl; [reflexivity|].
  now rewrite firstn_map, skipn_map, IH.
Qed.

Lemma FDense_ok (round : R -> IEEE.float) (f : nat) (p : FDenseParams)
    (x y : FArray) :
  FDense round f p x = Ok y ->
  fshape x <> []
  /\ ffits_dense (last_dim (fshape x)) f p
  /\ y = mkFArray (batch_dims (fshape x) ++ [f])
                  (concat (map (fdense_row round (last_dim (fshape x)) f p)
                               (ffeature_rows x))).
Proof.
  unfold FDense. destruct (fshape x) as [|n s] eqn:Hs; [discriminate|].
  destruct (shape_eqb (fshape (fkernel p)) _ && shape_eqb (fshape (fbias p)) _)
    eqn:Hc; [|discriminate].
  apply andb_prop in Hc as [Hk Hb]. apply shape_eqb_eq in Hk, Hb.
  intros H. injection H as <-. repeat split; congruence.
Qed.

Lemma FDense_fits (round : R -> IEEE.float) (f din : nat) (pre : list nat)
    (p : FDenseParams) (x : FArray) :
  fshape x = pre ++ [din] ->
  ffits_dense din f p ->
  exists y, FDense round f p x = Ok y.
Proof.
  intros Hx [Hk Hb]. unfold FDense. rewrite Hx, last_dim_app, Hk, Hb.
  rewrite !shape_eqb_refl. destruct (pre ++ [din]) eqn:E; [now destruct pre|].
  simpl. eauto.
Qed.

(** [tanh] of a float is a NaN, for a NaN, or a number of [[-1, 1]]. *)
Lemma IEEE_tanh_range (round : R -> IEEE.float) (u : IEEE.float) :
  IEEE.round_unit round ->
  (u = IEEE.NaN /\ IEEE.tanh round u = IEEE.NaN)
  \/ (u <> IEEE.NaN /\ IEEE.in_unit (IEEE.tanh round u)).
Proof.
  intros Hr. destruct u as [|s|a]; simpl.
  - left. split; reflexivity.
  - right. split; [discriminate|]. eexists. split; [reflexivity|].
    destruct s; lra.
  - right. split; [discriminate|]. apply Hr, tanh_bounds.
Qed.

(** C5, as the code has it: when the encoder returns, its output keeps the
    leading dimensions of [z] and holds, for each feature vector of [z],
    [tanh] of the dense projection, to [nz] features, of the normalized
    vector [(z - z_mean) / z_scale]; every element of it is a NaN or lies in
    [[-1, 1]], and it is a NaN exactly when the projection is; and the
    encoder does return when the stored kernel and bias fit the last
    dimension of [z]. *)
Theorem ZEncoder_fcall_nan_or_bounded
    (round : R -> IEEE.float) (self : ZEncoder.t) (p : FDenseParams) (z : FArray) :
  IEEE.round_unit round ->
  (forall y : FArray,
      ZEncoder_fcall round self p (Some z) = Ok y ->
      fshape y = batch_dims (fshape z) ++ [ZEncoder.nz self]
      /\ fdata y
         = concat
             (map (fun r =>
                     map (IEEE.tanh round)
                         (fdense_row round (last_dim (fshape z)) (ZEncoder.nz self) p
                            (map (fun v =>
                                    IEEE.div round
                                      (IEEE.sub round v
                                         (IEEE.Fin (ZEncoder.z_mean self)))
                                      (IEEE.Fin (ZEncoder.z_scale self)))
                                 r)))
                  (ffeature_rows z))
      /\ Forall (fun v => v = IEEE.NaN \/ IEEE.in_unit v) (fdata y))
  /\ (forall u : IEEE.float, IEEE.tanh round u = IEEE.NaN <-> u = IEEE.NaN)
  /\ (forall (pre : list nat) (din : nat),
        fshape z = pre ++ [din] ->
        ffits_dense din (ZEncoder.nz self) p ->
        exists y : FArray, ZEncoder_fcall round self p (Some z) = Ok y).
Proof.
  intros Hr. split; [|split].
  - intros y H. unfold ZEncoder_fcall in H.
    apply bind_ok in H as (d & Hd & H). injection H as <-.
    apply FDense_ok in Hd as (_ & _ & ->). simpl fshape. simpl fdata.
    split; [reflexivity|]. split.
    + unfold ffeature_rows at 1. simpl fshape. simpl fdata.
      rewrite fchunks_map, concat_map, !map_map. reflexivity.
    + apply Forall_forall. intros v Hv.
      apply in_map_iff in Hv as (u & <- & _).
      destruct (IEEE_tanh_range round u Hr) as [[_ ->]|[_ H]]; auto.
  - intros u. destruct (IEEE_tanh_range round u Hr) as [[-> H]|[Hu [q [H _]]]].
    + split; reflexivity.
    + rewrite H. split; [discriminate | contradiction].
  - intros pre din Hz Hf. unfold ZEncoder_fcall.
    destruct (FDense_fits round (ZEncoder.nz self) din pre p
                (mkFArray (fshape z)
                   (map (fun v =>
                           IEEE.div round
                             (IEEE.sub round v (IEEE.Fin (ZEncoder.z_mean self)))
                             (IEEE.Fin (ZEncoder.z_scale self)))
                        (fdata z)))
                Hz Hf) as (d & ->).
    simpl. eauto.
Qed.

Lemma ZEncoder_fcall_nan_or_bounded_witness :
  exists y : FArray,
    ZEncoder_fcall IEEE.Fin zEncoder0 (to_float_params zParams0) (Some (to_float z0))
    = Ok y
    /\ fshape y = [4; 8]%nat
    /\ Forall (fun v => v = IEEE.NaN \/ IEEE.in_unit v) (fdata y).
Proof.
  assert (Hr : IEEE.round_unit IEEE.Fin) by (intros r H; exists r; auto).
  destruct (ZEncoder_fcall_nan_or_bounded IEEE.Fin zEncoder0
              (to_float_params zParams0) (to_float z0) Hr) as (H1 & _ & H3).
  destruct (H3 [4%nat] 1%nat eq_refl (conj eq_refl eq_refl)) as [y Hy].
  exists y. split; [exact Hy|].
  destruct (H1 y Hy) as (Hs & _ & Hb). split; [exact Hs | exact Hb].
Defined.

Lemma zero_real_true (r : R) : r = 0 -> IEEE.zero_real r = true.
Proof.
  intros ->. unfold IEEE.zero_real. destruct (Req_dec_T 0 0); congruence.
Qed.

Lemma round_max_fin (m r : R) : - m <= r <= m -> round_max m r = IEEE.Fin r.
Proof.
  intros H. unfold round_max.
  destruct (Rlt_dec m r); [lra|]. destruct (Rlt_dec r (- m)); [lra | reflexivity].
Qed.

Lemma round_max_over (m r : R) : m < r -> round_max m r = IEEE.Inf false.
Proof. intros H. unfold round_max. destruct (Rlt_dec m r); [reflexivity | lra]. Qed.

Lemma round_max_under (m r : R) :
  0 <= m -> r < - m -> round_max m r = IEEE.Inf true.
Proof.
  intros Hm H. unfold round_max.
  destruct (Rlt_dec m r); [lra|]. destruct (Rlt_dec r (- m)); [reflexivity | lra].
Qed.

Lemma round_max_unit (m : R) : 1 <= m -> IEEE.round_unit (round_max m).
Proof.
  intros Hm r Hr. rewrite round_max_fin by lra. exists r. auto.
Qed.

(** The bound does not hold of every latent: with [z_scale = 0] the latent
    [z = z_mean] is normalized to 0 / 0, and the encoding is a NaN; with the
    encoder of the facade a NaN in the latent is a NaN in the encoding; and
    in a format that overflows, finite latents and stored variables can put
    an infinity minus an infinity into the projection, a NaN again. *)
Lemma ZEncoder_bound_counterexample :
  ZEncoder_fcall IEEE.Fin zEncoderScale0 fParams1 (Some fz_mean)
  = Ok (mkFArray [1; 1]%nat [IEEE.NaN])
  /\ (exists y : FArray,
        ZEncoder_fcall IEEE.Fin zEncoder0 (to_float_params zParams0) (Some fz_nan)
        = Ok y
        /\ nth 0 (fdata y) (IEEE.Fin 0) = IEEE.NaN)
  /\ ZEncoder_fcall (round_max 4) zEncoderPlain fParamsBig (Some fz_big)
     = Ok (mkFArray [1; 1]%nat [IEEE.NaN])
  /\ ~ IEEE.in_unit IEEE.NaN.
Proof.
  split; [|split; [|split]].
  - unfold ZEncoder_fcall, FDense, zEncoderScale0, fParams1, fz_mean. simpl.
    rewrite (zero_real_true 0 eq_refl), (zero_real_true (0 + - 0)) by lra.
    reflexivity.
  - eexists. split; reflexivity.
  - unfold ZEncoder_fcall, FDense, zEncoderPlain, fParamsBig, fz_big. simpl.
    rewrite (round_max_fin 4 (4 + - 0)) by lra.
    assert (Hd : IEEE.div (round_max 4) (IEEE.Fin (4 + - 0)) (IEEE.Fin 1)
                 = IEEE.Fin ((4 + - 0) / 1)).
    { unfold IEEE.div, IEEE.zero_real. destruct (Req_dec_T 1 0) as [H|_]; [lra|].
      apply round_max_fin. lra. }
    rewrite Hd. cbn [IEEE.mul].
    rewrite (round_max_over 4 ((4 + - 0) / 1 * 4)) by lra.
    rewrite (round_max_under 4 ((4 + - 0) / 1 * - 4)) by lra.
    reflexivity.
  - intros [q [H _]]. discriminate.
Qed.

(** *** The real reading is the float reading without rounding

    On finite inputs, with a nonzero [z_scale] and a format that holds every
    real, the encoder on floats computes what [ZEncoder.call] computes. *)

Lemma fchunks_Fin (w n : nat) :
  forall l : list R,
    fchunks w n (map IEEE.Fin l) = map (map IEEE.Fin) (chunks w n l).
Proof.
  induction n as [|n IH]; intros l; simpl; [reflexivity|].
  now rewrite firstn_map, skipn_map, IH.
Qed.

Lemma fdot_Fin (u : list R) :
  forall v : list R,
    fdot IEEE.Fin (map IEEE.Fin u) (map IEEE.Fin v) = IEEE.Fin (dot u v).
Proof.
  induction u as [|x u IH]; intros [|y v]; simpl; try reflexivity.
  now rewrite IH.
Qed.

Lemma fcolumn_Fin (din dout j : nat) (k : list R) :
  fcolumn din dout j (map IEEE.Fin k) = map IEEE.Fin (column din dout j k).
Proof.
  unfold fcolumn, column. rewrite fchunks_Fin, !map_map.
  apply map_ext. intros r. apply (map_nth IEEE.Fin).
Qed.

Lemma fdense_row_Fin (din dout : nat) (p : DenseParams) (x : list R) :
  fdense_row IEEE.Fin din dout (to_float_params p) (map IEEE.Fin x)
  = map IEEE.Fin (dense_row din dout p x).
Proof.
  unfold fdense_row, dense_row. rewrite map_map. apply map_ext. intros j.
  simpl. rewrite fcolumn_Fin, fdot_Fin, (map_nth IEEE.Fin). reflexivity.
Qed.

Lemma FDense_Fin (f : nat) (p : DenseParams) (x : Array) :
  FDense IEEE.Fin f (to_float_params p) (to_float x)
  = match Dense f p x with
    | Ok y => Ok (to_float y)
    | Err e => Err e
    end.
Proof.
  unfold FDense, Dense, to_float at 1 2. simpl fshape.
  destruct (shape x) as [|n sh] eqn:Hs; [reflexivity|].
  destruct (shape_eqb (shape (kernel p)) _ && shape_eqb (shape (bias p)) _);
    [|reflexivity].
  f_equal. unfold to_float, ffeature_rows, feature_rows. simpl fshape.
  simpl fdata. simpl shape. simpl data. rewrite Hs. f_equal.
  rewrite fchunks_Fin, concat_map, !map_map. f_equal. apply map_ext. intros r.
  apply fdense_row_Fin.
Qed.

Lemma ZEncoder_fcall_exact (self : ZEncoder.t) (p : DenseParams) (z : Array) :
  ZEncoder.z_scale self <> 0 ->
  ZEncoder_fcall IEEE.Fin self (to_float_params p) (Some (to_float z))
  = match ZEncoder.call self p (Some z) with
    | Ok y => Ok (to_float y)
    | Err e => Err e
    end.
Proof.
  intros Hs. unfold ZEncoder_fcall, ZEncoder.call.
  assert (Hn : mkFArray (fshape (to_float z))
                 (map (fun v =>
                         IEEE.div IEEE.Fin
                           (IEEE.sub IEEE.Fin v (IEEE.Fin (ZEncoder.z_mean self)))
                           (IEEE.Fin (ZEncoder.z_scale self)))
                      (fdata (to_float z)))
               = to_float (ZEncoder.norm_z self z)).
  { unfold to_float, ZEncoder.norm_z, amap. simpl. f_equal. rewrite !map_map.
    apply map_ext. intros v.
    unfold IEEE.div, IEEE.sub, IEEE.add, IEEE.opp, IEEE.zero_real.
    destruct (Req_dec_T (ZEncoder.z_scale self) 0); [contradiction | reflexivity]. }
  rewrite Hn, FDense_Fin.
  destruct (Dense (ZEncoder.nz self) p (ZEncoder.norm_z self z)) as [d|e];
    [|reflexivity].
  simpl. unfold to_float, amap. simpl. now rewrite !map_map.
Qed.

(** ** The recurrent centralized value function behind the facade *)

Lemma mean0_ok (k : bool) (a m : Array) :
  mean0 k a = Ok m ->
  exists (n : nat) (rest : list nat),
    shape a = n :: rest
    /\ m = mkArray (if k then 1%nat :: rest else rest)
                   (map (fun s => s / INR n)
                        (vsum (size_of rest) (chunks (size_of rest) n (data a)))).
Proof.
  unfold mean0. destruct (shape a) as [|n rest]; [discriminate|].
  intros H. injection H as <-. eauto.
Qed.

Lemma LinearGNN_shape (msg_dim out_dim n_heads n_layers : nat)
    (p : DenseParams) (g : Array) (node_type n_type : nat) (x : Array) :
  LinearGNN msg_dim out_dim n_heads n_layers p g node_type n_type = Ok x ->
  shape x = [n_type; out_dim].
Proof.
  unfold LinearGNN.
  destruct (shape g) as [|n [|d [|]]] eqn:Hs; try discriminate.
  destruct (Nat.eqb n n_type) eqn:Hn; [|discriminate].
  apply Nat.eqb_eq in Hn. subst n. intros H.
  apply Dense_shape in H. rewrite H, Hs. reflexivity.
Qed.

Section CentralizedFacade.
Variables GraphsTuple GnnParams RnnParams : Type.
Variable GraphTransformerGNN : nat -> nat -> nat -> nat -> GnnCls GraphsTuple GnnParams.
Variable RNN : RnnBase -> nat -> RnnCls RnnParams.

(** The GNN hands back one embedding of width [out_dim] per node of the
    requested type. *)
Hypothesis GNN_shape :
  forall (msg_dim out_dim n_heads n_layers : nat) (p : GnnParams)
         (g : GraphsTuple) (node_type n_type : nat) (x : Array),
    GraphTransformerGNN msg_dim out_dim n_heads n_layers p g node_type n_type = Ok x ->
    shape x = [n_type; out_dim].

(** C1, as the code has it: a value network built with [use_rnn=False],
    [use_ef=False] and [decompose=False] ([n_agents=4] or any other count)
    returns from [get_value] a value of shape [(1, n_out)], the pooled row
    keeping its leading axis, and the recurrent state it was given; and it
    does return when the GNN does and the stored variables of the two-layer
    head and of the final projection fit. *)
Theorem get_value_centralized_shape_and_state
    (node_dim edge_dim n_agents n_out rnn_layers gnn_layers gnn_out_dim : nat)
    (use_lstm use_global_info : bool)
    (params : Params GnnParams DenseParams MLP.Params RnnParams)
    (obs : GraphsTuple) (rnn_state : Array) (z : option Array) :
  let self := ValueNet.init GraphTransformerGNN RNN node_dim edge_dim n_agents
                n_out false rnn_layers gnn_layers gnn_out_dim use_lstm false
                false use_global_info in
  (forall values rnn_state' : Array,
      ValueNet.get_value self params obs rnn_state z = Ok (values, rnn_state') ->
      shape values = [1%nat; n_out] /\ rnn_state' = rnn_state)
  /\ (forall (e : Array) (d1 d2 : DenseParams) (rest : MLP.Params),
        GraphTransformerGNN 32 gnn_out_dim 3 gnn_layers (p_gnn params) obs
          0%nat n_agents = Ok e ->
        p_head params = d1 :: d2 :: rest ->
        fits_dense gnn_out_dim 64 d1 ->
        fits_dense 64 64 d2 ->
        fits_dense 64 n_out (p_dense params) ->
        exists values : Array,
          ValueNet.get_value self params obs rnn_state z = Ok (values, rnn_state)
          /\ shape values = [1%nat; n_out]).
Proof.
  assert (Hshape : forall values rnn_state' : Array,
             ValueNet.get_value
               (ValueNet.init GraphTransformerGNN RNN node_dim edge_dim n_agents
                  n_out false rnn_layers gnn_layers gnn_out_dim use_lstm false
                  false use_global_info) params obs rnn_state z
             = Ok (values, rnn_state') ->
             shape values = [1%nat; n_out] /\ rnn_state' = rnn_state).
  { unfold ValueNet.get_value. simpl. unfold RStateFn.call. simpl.
    intros values rnn_state' H.
    apply bind_ok in H as ([v s] & H & Hr). injection Hr as -> ->.
    apply bind_ok in H as (x0 & Hg & H).
    apply bind_ok in H as (x1 & Hm & H).
    apply bind_ok in H as (x2 & Hh & H).
    apply bind_ok in H as (x3 & Hd & H).
    injection H as <- <-. split; [|reflexivity].
    apply GNN_shape in Hg.
    apply mean0_ok in Hm as (n & rest & Hs & ->).
    rewrite Hg in Hs. injection Hs as <- <-.
    apply MLP_layers_shape in Hh as [_ Hh]; [|discriminate].
    apply Dense_shape in Hd. rewrite Hd, Hh. simpl shape.
    rewrite batch_dims_app. reflexivity. }
  intros self. split; [exact Hshape|].
  intros e d1 d2 rest Hg Hp F1 F2 F3.
  assert (Hrun : exists values,
             ValueNet.get_value self params obs rnn_state z
             = Ok (values, rnn_state)).
  { subst self. unfold ValueNet.get_value. simpl. unfold RStateFn.call. simpl.
    rewrite Hg. simpl. pose proof (GNN_shape _ _ _ _ _ _ _ _ _ Hg) as He.
    unfold mean0. rewrite He. simpl. rewrite Hp. simpl.
    set (x1 := mkArray [1%nat; gnn_out_dim] _).
    cbn [MLP.call MLP.layers MLP.hid_sizes MLP.act MLP.act_final andb negb].
    destruct (Dense_fits 64 gnn_out_dim [1%nat] d1 x1 eq_refl F1) as (y1 & -> & S1).
    cbn [bind].
    destruct (Dense_fits 64 64 [1%nat] d2 (amap relu y1) S1 F2) as (y2 & -> & S2).
    cbn [bind].
    destruct (Dense_fits n_out 64 [1%nat] (p_dense params) (amap relu y2) S2 F3)
      as (y3 & -> & S3).
    cbn [bind]. eauto. }
  destruct Hrun as [values Hv]. exists values. split; [exact Hv|].
  exact (proj1 (Hshape _ _ Hv)).
Qed.

End CentralizedFacade.

Lemma get_value_centralized_shape_and_state_witness :
  exists values : Array,
    ValueNet.get_value valueNet0 valueParams0 obs0 rnn_state0 None
    = Ok (values, rnn_state0)
    /\ shape values = [1; 1]%nat.
Proof.
  refine (proj2 (get_value_centralized_shape_and_state Array DenseParams unit
                   LinearGNN AddRNN LinearGNN_shape 2 1 4 1 1 1 16 false false
                   valueParams0 obs0 rnn_state0 None)
                _ _ _ _ eq_refl eq_refl _ _ _);
    split; reflexivity.
Defined.

(** The value is not of shape [(1,)]: on a graph of four agents the call
    returns, and the value it returns has shape [(1, 1)]. *)
Lemma get_value_shape_counterexample :
  exists values rnn_state' : Array,
    ValueNet.get_value valueNet0 valueParams0 obs0 rnn_state0 None
    = Ok (values, rnn_state')
    /\ shape values = [1; 1]%nat
    /\ shape values <> [1%nat].
Proof.
  eexists. eexists. split; [reflexivity|].
  split; [reflexivity | discriminate].
Qed.

(** ** The latent-conditioning wrapper *)

Lemma concatenate_last_not_assertion (a b : Array) :
  concatenate_last a b <> Err AssertionError.
Proof.
  unfold concatenate_last. destruct (shape a); [discriminate|].
  destruct (_ && _); discriminate.
Qed.

Lemma Dense_not_assertion (f : nat) (p : DenseParams) (x : Array) :
  Dense f p x <> Err AssertionError.
Proof.
  unfold Dense. destruct (shape x); [discriminate|].
  destruct (_ && _); discriminate.
Qed.

Lemma ZEncoder_not_assertion (self : ZEncoder.t) (p : DenseParams) (z : option Array) :
  ZEncoder.call self p z <> Err AssertionError.
Proof.
  destruct z as [z|]; simpl; [|discriminate].
  pose proof (Dense_not_assertion (ZEncoder.nz self) p (ZEncoder.norm_z self z)) as H.
  destruct (Dense _ _ _); simpl; congruence.
Qed.

(** C6, as the code has it: the wrapper raises an assertion error whenever
    the rank of the observation is not the rank of the latent plus one; when
    it is, the call is exactly the base network applied to the concatenation,
    along the last axis, of the observation and the encoding of the latent
    expanded by one trailing axis, failures of those three steps included;
    and when neither the encoder nor the base network raises an assertion
    error of its own, the wrapper raises one if and only if the ranks do not
    fit. *)
Theorem EFWrapper_call_spec (BaseParams ZParams : Type)
    (self : EFWrapper.t BaseParams ZParams)
    (p : EFWrapper.Params BaseParams ZParams) (obs z : Array) :
  (ndim obs <> (ndim z + 1)%nat ->
   EFWrapper.call self p obs z = Err AssertionError)
  /\ (ndim obs = (ndim z + 1)%nat ->
      EFWrapper.call self p obs z
      = (enc_z <- EFWrapper.z_encoder_cls self (EFWrapper.p_z_encoder p)
                    (Some (expand_last z)) ;;
         feat <- concatenate_last obs enc_z ;;
         EFWrapper.base_cls self (EFWrapper.p_base p) feat))
  /\ ((forall l, EFWrapper.z_encoder_cls self (EFWrapper.p_z_encoder p) l
                 <> Err AssertionError) ->
      (forall feat, EFWrapper.base_cls self (EFWrapper.p_base p) feat
                    <> Err AssertionError) ->
      (EFWrapper.call self p obs z = Err AssertionError
       <-> ndim obs <> (ndim z + 1)%nat)).
Proof.
  unfold EFWrapper.call.
  destruct (Nat.eqb (ndim obs) (ndim z + 1)) eqn:Hr.
  - apply Nat.eqb_eq in Hr. simpl. split; [congruence|].
    split; [reflexivity|]. intros Hz Hb. split; [|congruence].
    intros H. exfalso.
    specialize (Hz (Some (expand_last z))).
    destruct (EFWrapper.z_encoder_cls self _ _) as [e|e]; simpl in H;
      [|congruence].
    pose proof (concatenate_last_not_assertion obs e) as Hc.
    destruct (concatenate_last obs e) as [f|e']; simpl in H; [|congruence].
    exact (Hb f H).
  - apply Nat.eqb_neq in Hr. simpl. split; [reflexivity|].
    split; [congruence|]. intros _ _. split; auto.
Qed.

Lemma EFWrapper_call_spec_witness :
  EFWrapper.call efWrapper0 efParams0 obs5 z4 = Err AssertionError
  /\ (exists y : Array,
        EFWrapper.call efWrapper0 efParams0 obs4x5 z4 = Ok y
        /\ shape y = [4; 1]%nat)
  /\ (EFWrapper.call efWrapper0 efParams0 obs4x5 z4 = Err AssertionError
      <-> ndim obs4x5 <> (ndim z4 + 1)%nat).
Proof.
  pose proof (EFWrapper_call_spec _ _ efWrapper0 efParams0 obs5 z4) as (H1 & _ & _).
  pose proof (EFWrapper_call_spec _ _ efWrapper0 efParams0 obs4x5 z4) as (_ & H2 & H3).
  split; [apply H1; discriminate|].
  split.
  - rewrite (H2 eq_refl). eexists. split; reflexivity.
  - apply H3.
    + intros l. apply ZEncoder_not_assertion.
    + intros feat. apply Dense_not_assertion.
Defined.

(** A failure of the wrapper does not tell that the ranks do not fit: with
    ranks that fit, an observation of three agents and a latent of four make
    the concatenation raise its shape error; and a base network that asserts
    on its input makes the wrapper raise an assertion error. *)
Lemma EFWrapper_only_if_counterexample :
  (ndim obs3x5 = (ndim z4 + 1)%nat
   /\ EFWrapper.call efWrapper0 efParams0 obs3x5 z4 = Err TypeError)
  /\ ~ (EFWrapper.call efWrapperChecked efParams0 obs4x5 z4 = Err AssertionError
        <-> ndim obs4x5 <> (ndim z4 + 1)%nat).
Proof.
  split; [split; reflexivity|].
  intros [H _]. apply H; reflexivity.
Qed.

(** ** The decomposed value function: shapes and assertions *)

Section DecShapes.
Variables GraphsTuple GnnParams ZParams HeadParams RnnParams : Type.
Variable self : DecRStateFn.t GraphsTuple GnnParams ZParams HeadParams RnnParams.
Variable p : Params GnnParams ZParams HeadParams RnnParams.

(** C2, as the code has it: a call of the decomposed head that returns,
    returns a value of shape [(n_agents, n_out)], whatever the configuration;
    a head output whose leading dimension is not [n_agents] raises an
    assertion error, and so does a projected value whose shape is not
    [(n_agents, n_out)]; a latent encoding whose leading dimensions are not
    those of the embeddings is stopped earlier, by the concatenation, with
    its shape error. *)
Theorem DecRStateFn_shape_contract
    (graph : GraphsTuple) (rnn_state : Array) (n_agents : nat) (z : option Array) :
  (forall values rnn_state' : Array,
      DecRStateFn.call self p graph rnn_state n_agents z = Ok (values, rnn_state') ->
      shape values = [n_agents; DecRStateFn.n_out self])
  /\ (forall (e f h : Array) (m : nat),
        DecRStateFn.gnn_cls self (p_gnn p) graph 0%nat n_agents = Ok e ->
        DecRStateFn.features self p e n_agents z = Ok f ->
        DecRStateFn.head_cls self (p_head p) f = Ok h ->
        shape_at h 0 = Ok m ->
        m <> n_agents ->
        DecRStateFn.call self p graph rnn_state n_agents z = Err AssertionError)
  /\ (forall (e f h x y rnn_state' : Array),
        DecRStateFn.gnn_cls self (p_gnn p) graph 0%nat n_agents = Ok e ->
        DecRStateFn.features self p e n_agents z = Ok f ->
        DecRStateFn.head_cls self (p_head p) f = Ok h ->
        shape_at h 0 = Ok n_agents ->
        DecRStateFn.rnn_stage self p h rnn_state = Ok (x, rnn_state') ->
        Dense (DecRStateFn.n_out self) (p_dense p) x = Ok y ->
        shape y <> [n_agents; DecRStateFn.n_out self] ->
        DecRStateFn.call self p graph rnn_state n_agents z = Err AssertionError)
  /\ (forall (e z_enc : Array) (enc : ZEncoderCls ZParams),
        DecRStateFn.gnn_cls self (p_gnn p) graph 0%nat n_agents = Ok e ->
        DecRStateFn.use_global_info self = false ->
        DecRStateFn.z_encoder_cls self = Some enc ->
        enc (p_z_encoder p) z = Ok z_enc ->
        shape e <> [] ->
        batch_dims (shape e) <> batch_dims (shape z_enc) ->
        DecRStateFn.call self p graph rnn_state n_agents z = Err TypeError).
Proof.
  unfold DecRStateFn.call. split; [|split; [|split]].
  - intros values rnn_state' H.
    apply bind_ok in H as (e & _ & H).
    apply bind_ok in H as (f & _ & H).
    apply bind_ok in H as (h & _ & H).
    apply bind_ok in H as (n0 & _ & H).
    apply bind_ok in H as (u & _ & H).
    apply bind_ok in H as ([x s] & _ & H).
    apply bind_ok in H as (y & _ & H).
    apply bind_ok in H as (u' & Ha & H).
    injection H as <- _.
    apply assert_ok in Ha. now apply shape_eqb_eq in Ha.
  - intros e f h m He Hf Hh Hm Hne.
    rewrite He. simpl. rewrite Hf. simpl. rewrite Hh. simpl. rewrite Hm. simpl.
    apply Nat.eqb_neq in Hne. rewrite Hne. reflexivity.
  - intros e f h x y rnn_state' He Hf Hh Hm Hr Hd Hne.
    rewrite He. simpl. rewrite Hf. simpl. rewrite Hh. simpl. rewrite Hm. simpl.
    rewrite Nat.eqb_refl. simpl. rewrite Hr. simpl.
    rewrite Hd. simpl.
    destruct (shape_eqb (shape y) [n_agents; DecRStateFn.n_out self]) eqn:Hs;
      [|reflexivity].
    apply shape_eqb_eq in Hs. contradiction.
  - intros e z_enc enc He Hg Hc Hz Hne Hbd.
    rewrite He. simpl. unfold DecRStateFn.features. rewrite Hg, Hc. simpl.
    rewrite Hz. simpl. unfold concatenate_last.
    destruct (shape e) as [|n0 s0] eqn:Hs; [congruence|].
    destruct (shape_eqb (batch_dims (n0 :: s0)) (batch_dims (shape z_enc))) eqn:Hb.
    + apply shape_eqb_eq in Hb. contradiction.
    + rewrite andb_false_r. reflexivity.
Qed.

End DecShapes.

Lemma DecRStateFn_shape_contract_witness :
  (exists values : Array,
      DecRStateFn.call decLatent (decParams 10) emb2x2 rnn_state0 2 (Some z2x1)
      = Ok (values, rnn_state0)
      /\ shape values = [2; 1]%nat)
  /\ (exists values : Array,
        DecRStateFn.call decGlobal (decParams 4) emb2x2 rnn_state0 2 None
        = Ok (values, rnn_state0)
        /\ shape values = [2; 1]%nat)
  /\ DecRStateFn.call decPlain (decParams 2) emb3x2 rnn_state0 2 None
     = Err AssertionError
  /\ DecRStateFn.call decLatent (decParams 10) emb2x2 rnn_state0 2 (Some z1x1)
     = Err TypeError.
Proof.
  split; [|split; [|split]].
  - eexists. split; [reflexivity|].
    exact (proj1 (DecRStateFn_shape_contract _ _ _ _ _ decLatent (decParams 10)
                    emb2x2 rnn_state0 2 (Some z2x1)) _ _ eq_refl).
  - eexists. split; [reflexivity|].
    exact (proj1 (DecRStateFn_shape_contract _ _ _ _ _ decGlobal (decParams 4)
                    emb2x2 rnn_state0 2 None) _ _ eq_refl).
  - refine (proj1 (proj2 (DecRStateFn_shape_contract _ _ _ _ _ decPlain
                            (decParams 2) emb3x2 rnn_state0 2 None))
                  _ _ _ 3%nat eq_refl eq_refl eq_refl eq_refl _).
    discriminate.
  - refine (proj2 (proj2 (proj2 (DecRStateFn_shape_contract _ _ _ _ _ decLatent
                                   (decParams 10) emb2x2 rnn_state0 2 (Some z1x1))))
                  emb2x2 _ _ eq_refl eq_refl eq_refl eq_refl _ _);
      discriminate.
Defined.

(** Not every intermediate with a wrong leading dimension ends in an
    assertion error: a latent encoding of one row for two agents, and, with
    the global embedding fused in, embeddings of three agents for two, are
    stopped by the concatenation, which raises its shape error, before
    either assertion is reached. *)
Lemma DecRStateFn_assertion_counterexample :
  (exists z_enc : Array,
      ZEncoder.call zEncoder0 zParams0 (Some z1x1) = Ok z_enc
      /\ shape_at z_enc 0 = Ok 1%nat
      /\ DecRStateFn.call decLatent (decParams 10) emb2x2 rnn_state0 2 (Some z1x1)
         = Err TypeError)
  /\ (FeatureGNN tt emb3x2 0%nat 2%nat = Ok emb3x2
      /\ shape_at emb3x2 0 = Ok 3%nat
      /\ DecRStateFn.call decGlobal (decParams 4) emb3x2 rnn_state0 2 None
         = Err TypeError)
  /\ Err (A := Array * Array) TypeError <> Err AssertionError.
Proof.
  split; [|split].
  - eexists. repeat split; reflexivity.
  - repeat split; reflexivity.
  - discriminate.
Qed.

(** ** Rows of an agents-by-features array *)

Lemma firstn_skipn_exact (w : nat) (r l : list R) :
  List.length r = w -> firstn w (r ++ l) = r /\ skipn w (r ++ l) = l.
Proof.
  intros <-. split.
  - rewrite firstn_app, Nat.sub_diag, firstn_all. simpl. apply app_nil_r.
  - rewrite skipn_app, Nat.sub_diag, skipn_all. reflexivity.
Qed.

Lemma chunks_length (w n : nat) (l : list R) : List.length (chunks w n l) = n.
Proof. revert l; induction n as [|n IH]; intros l; simpl; [|rewrite IH]; reflexivity. Qed.

Lemma chunks_concat (w : nat) (rows : list (list R)) :
  Forall (fun r => List.length r = w) rows ->
  chunks w (List.length rows) (concat rows) = rows.
Proof.
  induction 1 as [|r rows Hr _ IH]; simpl; [reflexivity|].
  destruct (firstn_skipn_exact w r (concat rows) Hr) as [-> ->].
  now rewrite IH.
Qed.

Lemma chunks_rows_full (w n : nat) :
  forall l : list R,
    List.length l = (n * w)%nat ->
    Forall (fun r => List.length r = w) (chunks w n l).
Proof.
  induction n as [|n IH]; intros l Hl; simpl; constructor.
  - rewrite firstn_length_le; [reflexivity|]. simpl in Hl. lia.
  - apply IH. rewrite length_skipn. simpl in Hl. lia.
Qed.

Lemma chunks_map (f : R -> R) (w n : nat) :
  forall l : list R, chunks w n (map f l) = map (map f) (chunks w n l).
Proof.
  induction n as [|n IH]; intros l; simpl; [reflexivity|].
  now rewrite firstn_map, skipn_map, IH.
Qed.

Lemma nth_zip_app (xs ys : list (list R)) (i : nat) :
  (i < List.length xs)%nat -> (i < List.length ys)%nat ->
  nth i (zip_app xs ys) [] = nth i xs [] ++ nth i ys [].
Proof.
  revert ys i; induction xs as [|x xs IH]; intros [|y ys] [|i] Hx Hy;
    simpl in *; try lia; [reflexivity|].
  apply IH; lia.
Qed.

Lemma zip_app_length (xs ys : list (list R)) :
  List.length xs = List.length ys ->
  List.length (zip_app xs ys) = List.length xs.
Proof.
  revert ys; induction xs as [|x xs IH]; intros [|y ys] H; simpl in *;
    try discriminate; [reflexivity|].
  now rewrite IH by congruence.
Qed.

Lemma zip_app_rows_full (w1 w2 : nat) (xs ys : list (list R)) :
  Forall (fun r => List.length r = w1) xs ->
  Forall (fun r => List.length r = w2) ys ->
  Forall (fun r => List.length r = (w1 + w2)%nat) (zip_app xs ys).
Proof.
  intros Hx; revert ys; induction Hx as [|x xs Hx _ IH]; intros ys Hy;
    simpl; [constructor|].
  destruct Hy as [|y ys Hy Hys]; constructor.
  - rewrite length_app. congruence.
  - now apply IH.
Qed.

Lemma nth_map_lt {A B : Type} (g : A -> B) (l : list A) (i : nat) (a : A) (b : B) :
  (i < List.length l)%nat -> nth i (map g l) b = g (nth i l a).
Proof.
  intros Hi. rewrite (nth_indep _ b (g a)) by now rewrite length_map.
  apply map_nth.
Qed.

Lemma nth_repeat_lt {A : Type} (a d : A) (n i : nat) :
  (i < n)%nat -> nth i (repeat a n) d = a.
Proof.
  revert i; induction n as [|n IH]; intros [|i] Hi; simpl; try lia;
    [reflexivity|].
  apply IH; lia.
Qed.

Lemma vadd_length (u v : list R) :
  List.length u = List.length v -> List.length (vadd u v) = List.length u.
Proof.
  revert v; induction u as [|x u IH]; intros [|y v] H; simpl in *;
    try discriminate; [reflexivity|].
  now rewrite IH by congruence.
Qed.

Lemma vsum_length (w : nat) (rows : list (list R)) :
  Forall (fun r => List.length r = w) rows -> List.length (vsum w rows) = w.
Proof.
  unfold vsum. induction 1 as [|r rows Hr _ IH]; simpl.
  - apply repeat_length.
  - rewrite vadd_length; congruence.
Qed.

Lemma size_of_app (s t : list nat) : size_of (s ++ t) = (size_of s * size_of t)%nat.
Proof. induction s as [|n s IH]; simpl; [lia|]. rewrite IH. lia. Qed.

Lemma dense_row_length (din dout : nat) (p : DenseParams) (x : list R) :
  List.length (dense_row din dout p x) = dout.
Proof. unfold dense_row. now rewrite length_map, length_seq. Qed.

Lemma concat_rows_length (w : nat) (rows : list (list R)) :
  Forall (fun r => List.length r = w) rows ->
  List.length (concat rows) = (List.length rows * w)%nat.
Proof.
  induction 1 as [|r rows Hr _ IH]; simpl; [reflexivity|].
  rewrite length_app, IH. lia.
Qed.

Lemma feature_rows_rank2 (a : Array) (n d : nat) :
  shape a = [n; d] -> feature_rows a = chunks d n (data a).
Proof.
  intros H. unfold feature_rows. rewrite H. simpl. now rewrite Nat.mul_1_r.
Qed.

Lemma row_rank2 (a : Array) (n d i : nat) :
  shape a = [n; d] -> row i a = nth i (chunks d n (data a)) [].
Proof.
  intros H. unfold row. rewrite H. simpl. now rewrite Nat.mul_1_r.
Qed.

Lemma wf_rank2 (a : Array) (n d : nat) :
  shape a = [n; d] -> wf a -> List.length (data a) = (n * d)%nat.
Proof. unfold wf. intros ->. simpl. intros ->. lia. Qed.

(** A dense layer preserves well-formedness, and on an agents-by-features
    array it maps each row by itself. *)
Lemma Dense_wf (f : nat) (p : DenseParams) (x y : Array) :
  Dense f p x = Ok y -> wf y.
Proof.
  intros H. apply Dense_ok in H as (_ & _ & _ & ->). unfold wf. simpl.
  rewrite size_of_app.
  rewrite (concat_rows_length f).
  - rewrite length_map. unfold feature_rows. rewrite chunks_length. simpl. lia.
  - apply Forall_forall. intros r Hr. apply in_map_iff in Hr as (u & <- & _).
    apply dense_row_length.
Qed.

Lemma Dense_rank2 (f : nat) (p : DenseParams) (x y : Array) (n d : nat) :
  shape x = [n; d] ->
  Dense f p x = Ok y ->
  shape y = [n; f]
  /\ forall i, (i < n)%nat -> row i y = dense_row d f p (row i x).
Proof.
  intros Hx H. apply Dense_ok in H as (_ & _ & _ & ->).
  rewrite (feature_rows_rank2 x n d Hx). rewrite Hx.
  change (last_dim [n; d]) with d. change (batch_dims [n; d] ++ [f]) with [n; f].
  split; [reflexivity|]. intros i Hi.
  set (rows := map (dense_row d f p) (chunks d n (data x))).
  rewrite (row_rank2 (mkArray [n; f] (concat rows)) n f i eq_refl).
  rewrite (row_rank2 x n d i Hx). simpl data. subst rows.
  assert (Hl : List.length (map (dense_row d f p) (chunks d n (data x))) = n)
    by now rewrite length_map, chunks_length.
  rewrite <- Hl at 1. rewrite chunks_concat.
  - apply nth_map_lt. now rewrite chunks_length.
  - apply Forall_forall. intros r Hr. apply in_map_iff in Hr as (u & <- & _).
    apply dense_row_length.
Qed.

Lemma amap_row (g : R -> R) (x : Array) (i : nat) :
  row i (amap g x) = map g (row i x).
Proof.
  unfold row, amap. simpl. rewrite chunks_map.
  change (@nil R) with (map g []) at 1. apply map_nth.
Qed.

Lemma amap_wf (g : R -> R) (x : Array) : wf x -> wf (amap g x).
Proof. unfold wf, amap. simpl. now rewrite length_map. Qed.

Lemma concatenate_last_rank2 (a b c : Array) (n d1 : nat) :
  shape a = [n; d1] -> wf a -> wf b ->
  concatenate_last a b = Ok c ->
  exists d2 : nat,
    shape b = [n; d2]
    /\ shape c = [n; (d1 + d2)%nat]
    /\ wf c
    /\ forall i, (i < n)%nat -> row i c = row i a ++ row i b.
Proof.
  intros Ha Wa Wb. unfold concatenate_last, ndim. rewrite Ha.
  destruct (shape b) as [|b0 [|b1 [|b2 sb]]] eqn:Hb; try (simpl; discriminate).
  change (batch_dims [n; d1]) with [n]. change (batch_dims [b0; b1]) with [b0].
  change (last_dim [n; d1]) with d1. change (last_dim [b0; b1]) with b1.
  destruct (Nat.eqb _ _ && shape_eqb [n] [b0]) eqn:Hc; [|discriminate].
  apply andb_prop in Hc as [_ Hc]. apply shape_eqb_eq in Hc.
  injection Hc as <-. intros H. injection H as <-.
  rewrite (feature_rows_rank2 a n d1 Ha), (feature_rows_rank2 b n b1 Hb).
  pose proof (chunks_rows_full d1 n (data a) (wf_rank2 a n d1 Ha Wa)) as Fa.
  pose proof (chunks_rows_full b1 n (data b) (wf_rank2 b n b1 Hb Wb)) as Fb.
  pose proof (zip_app_rows_full d1 b1 _ _ Fa Fb) as Fz.
  assert (Hl : List.length (zip_app (chunks d1 n (data a)) (chunks b1 n (data b))) = n)
    by (rewrite zip_app_length; rewrite !chunks_length; reflexivity).
  exists b1. split; [reflexivity|]. split; [reflexivity|]. split.
  - unfold wf. simpl. rewrite (concat_rows_length _ _ Fz), Hl. lia.
  - intros i Hi.
    set (rows := zip_app (chunks d1 n (data a)) (chunks b1 n (data b))) in *.
    rewrite (row_rank2 (mkArray [n; (d1 + b1)%nat] (concat rows)) n
               (d1 + b1) i eq_refl).
    rewrite (row_rank2 a n d1 i Ha), (row_rank2 b n b1 i Hb). simpl data.
    rewrite <- Hl at 1. rewrite (chunks_concat _ _ Fz). subst rows.
    apply nth_zip_app; now rewrite chunks_length.
Qed.

Lemma mean_tile_rank2 (e : Array) (n d : nat) :
  shape e = [n; d] -> wf e ->
  exists m : Array,
    mean0 true e = Ok m
    /\ List.length (data m) = d
    /\ shape (tile_n1 n m) = [n; d]
    /\ wf (tile_n1 n m)
    /\ forall i, (i < n)%nat -> row i (tile_n1 n m) = data m.
Proof.
  intros He We. unfold mean0. rewrite He. eexists. split; [reflexivity|].
  set (md := map _ _).
  assert (Hmd : List.length md = d).
  { subst md. rewrite length_map. simpl size_of. rewrite Nat.mul_1_r.
    apply vsum_length, chunks_rows_full. now apply wf_rank2. }
  assert (Ht : tile_n1 n (mkArray [1%nat; d] md)
               = mkArray [n; d] (concat (repeat md n))).
  { unfold tile_n1. simpl. rewrite !Nat.add_0_r, app_nil_r.
    change (last_dim [1%nat; d]) with d.
    rewrite <- Hmd at 2. now rewrite firstn_all. }
  rewrite Ht. simpl data. simpl shape.
  assert (Fr : Forall (fun r => List.length r = d) (repeat md n)).
  { apply Forall_forall. intros r Hr. apply repeat_spec in Hr. congruence. }
  split; [exact Hmd|]. split; [reflexivity|]. split.
  - unfold wf. simpl. rewrite (concat_rows_length _ _ Fr), repeat_length. lia.
  - intros i Hi.
    rewrite (row_rank2 (mkArray [n; d] (concat (repeat md n))) n d i eq_refl).
    simpl data. rewrite <- (repeat_length md n) at 1.
    rewrite (chunks_concat _ _ Fr). now apply nth_repeat_lt.
Qed.

Lemma MLP_layers_rowwise (f : R -> R) (final : bool) (hs : list nat) :
  forall ps : MLP.Params, rowwise (MLP.layers f final hs ps).
Proof.
  induction hs as [|h hs IH]; intros ps n d x1 x2 y1 y2 H1 H2 E1 E2.
  - simpl in E1, E2. injection E1 as <-. injection E2 as <-.
    split; [exists d; split; assumption | auto].
  - simpl in E1, E2. destruct ps as [|p ps]; [discriminate|].
    apply bind_ok in E1 as (a1 & D1 & E1). apply bind_ok in E2 as (a2 & D2 & E2).
    destruct (Dense_rank2 _ _ _ _ _ _ H1 D1) as [S1 R1].
    destruct (Dense_rank2 _ _ _ _ _ _ H2 D2) as [S2 R2].
    set (no_act := match hs with [] => true | _ => false end && negb final) in *.
    set (b1 := if no_act then a1 else amap f a1) in *.
    set (b2 := if no_act then a2 else amap f a2) in *.
    assert (Sb1 : shape b1 = [n; h]) by (subst b1; destruct no_act; exact S1).
    assert (Sb2 : shape b2 = [n; h]) by (subst b2; destruct no_act; exact S2).
    destruct (IH ps n h b1 b2 y1 y2 Sb1 Sb2 E1 E2) as [Hs Hr].
    split; [exact Hs|]. intros i Hi Hx. apply Hr; [exact Hi|].
    subst b1 b2. destruct no_act.
    + rewrite R1, R2 by exact Hi. now rewrite Hx.
    + rewrite !amap_row, R1, R2 by exact Hi. now rewrite Hx.
Qed.

Lemma MLP_rowwise (mlp : MLP.t) (ps : MLP.Params) : rowwise (MLP.call mlp ps).
Proof. apply MLP_layers_rowwise. Qed.

Lemma ZEncoder_wf (self : ZEncoder.t) (p : DenseParams) (z : option Array) (y : Array) :
  ZEncoder.call self p z = Ok y -> wf y.
Proof.
  destruct z as [z|]; simpl; [|discriminate]. intros H.
  apply bind_ok in H as (d & Hd & H). injection H as <-.
  apply amap_wf. now apply Dense_wf in Hd.
Qed.

Lemma vadd_firstn (w : nat) :
  forall u v : list R, firstn w (vadd u v) = vadd (firstn w u) (firstn w v).
Proof.
  induction w as [|w IH]; intros [|x u] [|y v]; simpl; try reflexivity.
  now rewrite IH.
Qed.

Lemma vadd_skipn (w : nat) :
  forall u v : list R, skipn w (vadd u v) = vadd (skipn w u) (skipn w v).
Proof.
  induction w as [|w IH]; intros u v; [reflexivity|].
  destruct u as [|x u], v as [|y v]; simpl; try reflexivity.
  - now destruct (skipn w u).
  - apply IH.
Qed.

Lemma vadd_chunks_nth (w n : nat) :
  forall (u v : list R) (i : nat),
    nth i (chunks w n (vadd u v)) []
    = vadd (nth i (chunks w n u) []) (nth i (chunks w n v) []).
Proof.
  induction n as [|n IH]; intros u v [|i]; simpl; try reflexivity.
  - apply vadd_firstn.
  - rewrite vadd_skipn. apply IH.
Qed.

Lemma AddRNN_rowwise (b : RnnBase) (layers : nat) (s : Array) :
  rowwise (fun x => '(y, _) <- AddRNN b layers tt x s ;; Ok y).
Proof.
  intros n d x1 x2 y1 y2 H1 H2 E1 E2. unfold AddRNN in E1, E2.
  destruct (shape_eqb (shape x1) (shape s)) eqn:C1; [|discriminate].
  destruct (shape_eqb (shape x2) (shape s)) eqn:C2; [|discriminate].
  simpl in E1, E2. injection E1 as <-. injection E2 as <-. simpl.
  split; [exists d; split; assumption|]. intros i Hi Hx.
  apply shape_eqb_eq in C1.
  rewrite (row_rank2 (mkArray (shape x1) _) n d i H1).
  rewrite (row_rank2 (mkArray (shape x2) _) n d i H2). simpl data.
  rewrite !vadd_chunks_nth.
  rewrite <- (row_rank2 x1 n d i H1), <- (row_rank2 x2 n d i H2).
  now rewrite Hx.
Qed.

(** ** The decomposed value function: who sees whom *)

Section DecGlobalInfo.
Variables GraphsTuple GnnParams ZParams HeadParams RnnParams : Type.
Variable self : DecRStateFn.t GraphsTuple GnnParams ZParams HeadParams RnnParams.
Variable p : Params GnnParams ZParams HeadParams RnnParams.

(** A call that returns went through every stage. *)
Lemma DecRStateFn_call_ok (graph : GraphsTuple) (rnn_state : Array)
    (n_agents : nat) (z : option Array) (values rnn_state' : Array) :
  DecRStateFn.call self p graph rnn_state n_agents z = Ok (values, rnn_state') ->
  exists e f h x : Array,
    DecRStateFn.gnn_cls self (p_gnn p) graph 0%nat n_agents = Ok e
    /\ DecRStateFn.features self p e n_agents z = Ok f
    /\ DecRStateFn.head_cls self (p_head p) f = Ok h
    /\ shape_at h 0 = Ok n_agents
    /\ DecRStateFn.rnn_stage self p h rnn_state = Ok (x, rnn_state')
    /\ Dense (DecRStateFn.n_out self) (p_dense p) x = Ok values.
Proof.
  unfold DecRStateFn.call. intros H.
  apply bind_ok in H as (e & He & H).
  apply bind_ok in H as (f & Hf & H).
  apply bind_ok in H as (h & Hh & H).
  apply bind_ok in H as (n0 & Hn & H).
  apply bind_ok in H as (u & Ha & H).
  apply bind_ok in H as ([x s] & Hr & H).
  apply bind_ok in H as (y & Hd & H).
  apply bind_ok in H as (u' & _ & H).
  injection H as <- <-.
  apply assert_ok, Nat.eqb_eq in Ha. subst n0.
  exists e, f, h, x. auto 10.
Qed.

(** Without the global embedding, row [i] of what the head is applied to is
    fixed by row [i] of the embeddings. *)
Lemma DecRStateFn_features_local (e1 e2 f1 f2 : Array) (n d : nat)
    (z : option Array) :
  DecRStateFn.use_global_info self = false ->
  encoder_wf (DecRStateFn.z_encoder_cls self) (p_z_encoder p) ->
  shape e1 = [n; d] -> shape e2 = [n; d] -> wf e1 -> wf e2 ->
  DecRStateFn.features self p e1 n z = Ok f1 ->
  DecRStateFn.features self p e2 n z = Ok f2 ->
  (exists d' : nat, shape f1 = [n; d'] /\ shape f2 = [n; d'])
  /\ forall i, (i < n)%nat -> row i e1 = row i e2 -> row i f1 = row i f2.
Proof.
  unfold DecRStateFn.features, encoder_wf. intros -> Hw S1 S2 W1 W2. simpl.
  destruct (DecRStateFn.z_encoder_cls self) as [enc|].
  - intros H1 H2.
    apply bind_ok in H1 as (z1 & Z1 & H1). apply bind_ok in H2 as (z2 & Z2 & H2).
    assert (z2 = z1) by congruence. subst z2.
    pose proof (Hw _ _ Z1) as Wz.
    destruct (concatenate_last_rank2 _ _ _ _ _ S1 W1 Wz H1) as (d2 & Sz & Sf1 & _ & R1).
    destruct (concatenate_last_rank2 _ _ _ _ _ S2 W2 Wz H2) as (d3 & Sz' & Sf2 & _ & R2).
    assert (d3 = d2) by congruence. subst d3.
    split; [exists (d + d2)%nat; split; assumption|].
    intros i Hi Hx. rewrite R1, R2 by exact Hi. now rewrite Hx.
  - intros H1 H2. injection H1 as <-. injection H2 as <-.
    split; [exists d; split; assumption | auto].
Qed.

(** C3: with [use_global_info] set, the feature vector the head receives for
    agent [i] is that agent's embedding followed by the mean of all agents'
    embeddings (and then by the agent's latent encoding, when an encoder is
    configured), and there are stored variables and embeddings for which
    changing one agent's embedding changes every agent's output; with
    [use_global_info] unset, a head and a recurrent wrapper that work row by
    row give agent [i] the same output row for any two graphs whose
    embeddings agree on row [i]. *)
Theorem DecRStateFn_global_info_and_locality :
  (forall (e f : Array) (n d : nat) (z : option Array),
      DecRStateFn.use_global_info self = true ->
      shape e = [n; d] -> wf e ->
      encoder_wf (DecRStateFn.z_encoder_cls self) (p_z_encoder p) ->
      DecRStateFn.features self p e n z = Ok f ->
      exists m : Array,
        mean0 true e = Ok m
        /\ match DecRStateFn.z_encoder_cls self with
           | None => forall i, (i < n)%nat -> row i f = row i e ++ data m
           | Some enc =>
               exists z_enc : Array,
                 enc (p_z_encoder p) z = Ok z_enc
                 /\ forall i, (i < n)%nat ->
                               row i f = (row i e ++ data m) ++ row i z_enc
           end)
  /\ (exists values values' : Array,
        DecRStateFn.call decGlobal1 decGlobal1Params emb_before rnn_state0 2 None
        = Ok (values, rnn_state0)
        /\ DecRStateFn.call decGlobal1 decGlobal1Params emb_after rnn_state0 2 None
           = Ok (values', rnn_state0)
        /\ row 1 emb_before = row 1 emb_after
        /\ row 0 values <> row 0 values'
        /\ row 1 values <> row 1 values')
  /\ (forall (graph1 graph2 : GraphsTuple) (rnn_state : Array) (n d : nat)
             (z : option Array) (e1 e2 values1 values2 s1 s2 : Array) (i : nat),
        DecRStateFn.use_global_info self = false ->
        rowwise (DecRStateFn.head_cls self (p_head p)) ->
        rowwise_rnn (DecRStateFn.rnn_cls self) (p_rnn p) rnn_state ->
        encoder_wf (DecRStateFn.z_encoder_cls self) (p_z_encoder p) ->
        DecRStateFn.gnn_cls self (p_gnn p) graph1 0%nat n = Ok e1 ->
        DecRStateFn.gnn_cls self (p_gnn p) graph2 0%nat n = Ok e2 ->
        shape e1 = [n; d] -> shape e2 = [n; d] -> wf e1 -> wf e2 ->
        (i < n)%nat ->
        row i e1 = row i e2 ->
        DecRStateFn.call self p graph1 rnn_state n z = Ok (values1, s1) ->
        DecRStateFn.call self p graph2 rnn_state n z = Ok (values2, s2) ->
        row i values1 = row i values2).
Proof.
  split; [|split].
  - intros e f n d z Hg Se We Hw. unfold DecRStateFn.features. rewrite Hg.
    destruct (mean_tile_rank2 e n d Se We) as (m & Hm & _ & St & Wt & Rt).
    rewrite Hm. simpl. intros H. exists m. split; [reflexivity|].
    apply bind_ok in H as (g & Hc & H).
    destruct (concatenate_last_rank2 _ _ _ _ _ Se We Wt Hc)
      as (d2 & _ & Sg & Wg & Rg).
    unfold encoder_wf in Hw.
    destruct (DecRStateFn.z_encoder_cls self) as [enc|].
    + apply bind_ok in H as (z_enc & Hz & H). exists z_enc.
      split; [exact Hz|]. intros i Hi.
      destruct (concatenate_last_rank2 _ _ _ _ _ Sg Wg (Hw _ _ Hz) H)
        as (d3 & _ & _ & _ & Rf).
      now rewrite Rf, Rg, Rt by exact Hi.
    + injection H as <-. intros i Hi. now rewrite Rg, Rt by exact Hi.
  - exists (mkArray [2; 1]%nat [2; 2]), (mkArray [2; 1]%nat [5; 3]).
    assert (H2 : INR 2 = 2) by (simpl; lra).
    repeat split.
    + cbv [DecRStateFn.call DecRStateFn.features decGlobal1 decGlobal1Params
           emb_before FeatureGNN bind DecRStateFn.gnn_cls
           DecRStateFn.use_global_info DecRStateFn.z_encoder_cls
           DecRStateFn.head_cls DecRStateFn.rnn_cls DecRStateFn.rnn_stage
           DecRStateFn.n_out p_gnn p_head p_dense p_rnn].
      cbn -[Rplus Rmult Rdiv Rmax INR]. rewrite H2. unfold relu.
      rewrite Rmax_right by lra. do 3 f_equal. f_equal; [lra|]. f_equal. lra.
    + cbv [DecRStateFn.call DecRStateFn.features decGlobal1 decGlobal1Params
           emb_after FeatureGNN bind DecRStateFn.gnn_cls
           DecRStateFn.use_global_info DecRStateFn.z_encoder_cls
           DecRStateFn.head_cls DecRStateFn.rnn_cls DecRStateFn.rnn_stage
           DecRStateFn.n_out p_gnn p_head p_dense p_rnn].
      cbn -[Rplus Rmult Rdiv Rmax INR]. rewrite H2. unfold relu.
      rewrite !Rmax_right by lra. do 3 f_equal. f_equal; [lra|]. f_equal. lra.
    + cbn. intros H. injection H as H. lra.
    + cbn. intros H. injection H as H. lra.
  - intros graph1 graph2 rnn_state n d z e1 e2 values1 values2 s1 s2 i
      Hg Hhead Hrnn Hw G1 G2 S1 S2 W1 W2 Hi Hrow C1 C2.
    apply DecRStateFn_call_ok in C1 as (e1' & f1 & h1 & x1 & G1' & F1 & Hh1 & _ & Hr1 & D1).
    apply DecRStateFn_call_ok in C2 as (e2' & f2 & h2 & x2 & G2' & F2 & Hh2 & _ & Hr2 & D2).
    assert (e1' = e1) by congruence. assert (e2' = e2) by congruence. subst e1' e2'.
    destruct (DecRStateFn_features_local _ _ _ _ _ _ _ Hg Hw S1 S2 W1 W2 F1 F2)
      as ((df & Sf1 & Sf2) & Rf).
    destruct (Hhead _ _ _ _ _ _ Sf1 Sf2 Hh1 Hh2) as ((dh & Sh1 & Sh2) & Rh).
    assert (Hx : (exists dx, shape x1 = [n; dx] /\ shape x2 = [n; dx])
                 /\ (row i h1 = row i h2 -> row i x1 = row i x2)).
    { unfold DecRStateFn.rnn_stage in Hr1, Hr2. unfold rowwise_rnn in Hrnn.
      destruct (DecRStateFn.rnn_cls self) as [rnn|].
      - destruct (Hrnn n dh h1 h2 x1 x2 Sh1 Sh2) as [Sx Rx].
        + now rewrite Hr1.
        + now rewrite Hr2.
        + split; [exact Sx | exact (Rx i Hi)].
      - injection Hr1 as <- _. injection Hr2 as <- _.
        split; [exists dh; split; assumption | auto]. }
    destruct Hx as ((dx & Sx1 & Sx2) & Rx).
    destruct (Dense_rank2 _ _ _ _ _ _ Sx1 D1) as [_ R1].
    destruct (Dense_rank2 _ _ _ _ _ _ Sx2 D2) as [_ R2].
    rewrite R1, R2 by exact Hi. f_equal. auto.
Qed.

End DecGlobalInfo.

Lemma DecRStateFn_global_info_and_locality_witness :
  (exists f m : Array,
      DecRStateFn.features decGlobal (decParams 4) emb2x2 2 None = Ok f
      /\ mean0 true emb2x2 = Ok m
      /\ row 1 f = row 1 emb2x2 ++ data m)
  /\ (exists values1 values2 s1 s2 : Array,
        DecRStateFn.call decLocal (decParams 10) emb2x2 carry2x2 2 (Some z2x1)
        = Ok (values1, s1)
        /\ DecRStateFn.call decLocal (decParams 10) emb2x2' carry2x2 2 (Some z2x1)
           = Ok (values2, s2)
        /\ row 1 values1 = row 1 values2).
Proof.
  split.
  - destruct (proj1 (DecRStateFn_global_info_and_locality _ _ _ _ _ decGlobal
                       (decParams 4))
                    emb2x2 _ 2%nat 2%nat None eq_refl eq_refl eq_refl I eq_refl)
      as (m & Hm & Hrow).
    eexists. exists m. split; [reflexivity|]. split; [exact Hm|].
    apply Hrow. lia.
  - eexists. eexists. eexists. eexists.
    split; [reflexivity|]. split; [reflexivity|].
    refine (proj2 (proj2 (DecRStateFn_global_info_and_locality _ _ _ _ _ decLocal
                            (decParams 10)))
                  emb2x2 emb2x2' carry2x2 2%nat 2%nat (Some z2x1) emb2x2 emb2x2'
                  _ _ _ _ 1%nat eq_refl _ _ _ eq_refl eq_refl eq_refl eq_refl
                  eq_refl eq_refl _ eq_refl eq_refl eq_refl).
    + apply MLP_rowwise.
    + apply AddRNN_rowwise.
    + intros l y. apply ZEncoder_wf.
    + lia.
Defined.

(** * Further properties *)

(** ** The rollout record on rewards of low rank *)

(** X1: the derived properties index the shape of the rewards and nothing
    guards the index: [length] raises [IndexError] exactly on rewards of rank
    0, [time_horizon] and [n_data] exactly below rank 2, [num_agents] exactly
    below rank 3; so rewards of rank 2 give an [n_data] and no
    [num_agents]. *)
Theorem Rollout_rank_errors (G : Type) (r : Rollout.t G) :
  (Rollout.length r = Err IndexError <-> ndim (Rollout.rewards r) = 0%nat)
  /\ (Rollout.time_horizon r = Err IndexError <-> (ndim (Rollout.rewards r) < 2)%nat)
  /\ (Rollout.n_data r = Err IndexError <-> (ndim (Rollout.rewards r) < 2)%nat)
  /\ (Rollout.num_agents r = Err IndexError <-> (ndim (Rollout.rewards r) < 3)%nat)
  /\ (forall e : error,
        Rollout.length r = Err e \/ Rollout.time_horizon r = Err e
        \/ Rollout.num_agents r = Err e \/ Rollout.n_data r = Err e ->
        e = IndexError).
Proof.
  unfold Rollout.n_data, Rollout.length, Rollout.time_horizon,
    Rollout.num_agents, shape_at, ndim.
  destruct (shape (Rollout.rewards r)) as [|a [|b [|c rest]]]; simpl;
    repeat split; intros; try lia; try discriminate; try reflexivity;
    repeat match goal with
           | H : _ \/ _ |- _ => destruct H
           | H : Err _ = Err _ |- _ => injection H as <-
           | H : Ok _ = Err _ |- _ => discriminate H
           end; reflexivity.
Qed.

(** ** Shapes through the stages *)

Lemma concatenate_last_ok (a b c : Array) :
  concatenate_last a b = Ok c ->
  shape a <> []
  /\ ndim a = ndim b
  /\ batch_dims (shape a) = batch_dims (shape b)
  /\ c = mkArray (batch_dims (shape a) ++ [(last_dim (shape a) + last_dim (shape b))%nat])
                 (concat (zip_app (feature_rows a) (feature_rows b))).
Proof.
  unfold concatenate_last. destruct (shape a) as [|n s] eqn:Hs; [discriminate|].
  destruct (Nat.eqb (ndim a) (ndim b)
            && shape_eqb (batch_dims (n :: s)) (batch_dims (shape b))) eqn:Hc;
    [|discriminate].
  apply andb_prop in Hc as [Hn Hb].
  apply Nat.eqb_eq in Hn. apply shape_eqb_eq in Hb.
  intros H. injection H as <-. repeat split; congruence.
Qed.

Lemma concatenate_last_total (pre : list nat) (d1 d2 : nat) (a b : Array) :
  shape a = pre ++ [d1] -> shape b = pre ++ [d2] ->
  exists c, concatenate_last a b = Ok c /\ shape c = pre ++ [(d1 + d2)%nat].
Proof.
  intros Ha Hb. unfold concatenate_last, ndim. rewrite Ha, Hb.
  rewrite !batch_dims_app, !last_dim_app, !length_app, Nat.eqb_refl,
    shape_eqb_refl.
  destruct (pre ++ [d1]) eqn:E; [now destruct pre|]. simpl. eauto.
Qed.

Lemma concatenate_last_mismatch (a b : Array) :
  shape a <> [] ->
  batch_dims (shape a) <> batch_dims (shape b) ->
  concatenate_last a b = Err TypeError.
Proof.
  intros Ha Hne. unfold concatenate_last.
  destruct (shape a) as [|n s] eqn:Hs; [congruence|].
  destruct (shape_eqb (batch_dims (n :: s)) (batch_dims (shape b))) eqn:Hb.
  - apply shape_eqb_eq in Hb. contradiction.
  - now rewrite andb_false_r.
Qed.

Lemma mean0_total (k : bool) (a : Array) (n : nat) (rest : list nat) :
  shape a = n :: rest ->
  exists m, mean0 k a = Ok m /\ shape m = if k then 1%nat :: rest else rest.
Proof. intros H. unfold mean0. rewrite H. eauto. Qed.

Lemma tile_n1_shape (n d : nat) (m : Array) :
  shape m = [1%nat; d] -> shape (tile_n1 n m) = [n; d].
Proof.
  intros H. unfold tile_n1. rewrite H. simpl. now rewrite Nat.add_0_r.
Qed.

Lemma ZEncoder_total (self : ZEncoder.t) (p : DenseParams) (z : Array)
    (pre : list nat) (din : nat) :
  shape z = pre ++ [din] ->
  fits_dense din (ZEncoder.nz self) p ->
  exists y, ZEncoder.call self p (Some z) = Ok y
            /\ shape y = pre ++ [ZEncoder.nz self].
Proof.
  intros Hz Hf. unfold ZEncoder.call.
  destruct (Dense_fits (ZEncoder.nz self) din pre p (ZEncoder.norm_z self z) Hz Hf)
    as (d & -> & Hd).
  simpl. eauto.
Qed.

Lemma ZEncoder_shape (self : ZEncoder.t) (p : DenseParams) (z : option Array)
    (y : Array) :
  ZEncoder.call self p z = Ok y ->
  exists z', z = Some z'
             /\ shape z' <> []
             /\ fits_dense (last_dim (shape z')) (ZEncoder.nz self) p
             /\ shape y = batch_dims (shape z') ++ [ZEncoder.nz self].
Proof.
  destruct z as [z'|]; simpl; [|discriminate]. intros H.
  apply bind_ok in H as (d & Hd & H). injection H as <-.
  apply Dense_ok in Hd as (Hne & Hk & Hb & ->).
  exists z'. repeat split; assumption.
Qed.

Lemma MLP_two_layers_total (f : R -> R) (h1 h2 d : nat) (pre : list nat)
    (d1 d2 : DenseParams) (rest : MLP.Params) (x : Array) :
  shape x = pre ++ [d] ->
  fits_dense d h1 d1 -> fits_dense h1 h2 d2 ->
  exists y, MLP.call (MLP.mk [h1; h2] f true) (d1 :: d2 :: rest) x = Ok y
            /\ shape y = pre ++ [h2].
Proof.
  intros Hx F1 F2. unfold MLP.call.
  cbn [MLP.layers MLP.hid_sizes MLP.act MLP.act_final andb negb].
  destruct (Dense_fits h1 d pre d1 x Hx F1) as (y1 & -> & S1). cbn [bind].
  destruct (Dense_fits h2 h1 pre d2 (amap f y1) S1 F2) as (y2 & -> & S2).
  cbn [bind]. exists (amap f y2). split; [reflexivity | exact S2].
Qed.

(** What the first layer of a head of two layers demands of its input. *)
Lemma MLP_two_layers_ok (f : R -> R) (final : bool) (h1 h2 : nat)
    (ps : MLP.Params) (x y : Array) :
  MLP.call (MLP.mk [h1; h2] f final) ps x = Ok y ->
  exists (d1 d2 : DenseParams) (rest : MLP.Params),
    ps = d1 :: d2 :: rest
    /\ fits_dense (last_dim (shape x)) h1 d1
    /\ fits_dense h1 h2 d2
    /\ shape y = batch_dims (shape x) ++ [h2].
Proof.
  unfold MLP.call. cbn [MLP.layers MLP.hid_sizes MLP.act MLP.act_final andb].
  destruct ps as [|d1 ps]; [discriminate|]. intros H.
  apply bind_ok in H as (y1 & D1 & H).
  destruct ps as [|d2 rest]; [discriminate|].
  apply bind_ok in H as (y2 & D2 & H).
  apply Dense_ok in D1 as (_ & K1 & B1 & Y1).
  apply Dense_ok in D2 as (_ & K2 & B2 & Y2).
  assert (S1 : shape (amap f y1) = batch_dims (shape x) ++ [h1]) by now subst y1.
  rewrite S1, last_dim_app in K2. rewrite S1, batch_dims_app in Y2.
  exists d1, d2, rest. split; [reflexivity|].
  split; [split; assumption|]. split; [split; assumption|].
  destruct (negb final); injection H as <-; subst y2; reflexivity.
Qed.

Section HeadInputs.
Variables GraphsTuple GnnParams ZParams HeadParams RnnParams : Type.
Variable p : Params GnnParams ZParams HeadParams RnnParams.

(** The statement "add z information" of both heads, on the array [x]. *)
Lemma add_z_shape (enc : option (ZEncoderCls ZParams)) (x f : Array)
    (z : option Array) (n w : nat) :
  shape x = [n; w] ->
  match enc with
  | Some enc => z_enc <- enc (p_z_encoder p) z ;; concatenate_last x z_enc
  | None => Ok x
  end = Ok f ->
  match enc with
  | None => f = x
  | Some enc =>
      exists (z_enc : Array) (dz : nat),
        enc (p_z_encoder p) z = Ok z_enc
        /\ shape z_enc = [n; dz]
        /\ concatenate_last x z_enc = Ok f
        /\ shape f = [n; (w + dz)%nat]
  end.
Proof.
  intros Hx. destruct enc as [enc|]; [|now intros H; injection H].
  intros H. apply bind_ok in H as (z_enc & Hz & H).
  pose proof (concatenate_last_ok _ _ _ H) as (_ & Hn & Hb & Hf).
  unfold ndim in Hn. rewrite Hx in Hn, Hb, Hf.
  destruct (shape z_enc) as [|a [|dz [|]]] eqn:Hs; try discriminate.
  change (batch_dims [n; w]) with [n] in *.
  change (batch_dims [a; dz]) with [a] in *.
  injection Hb as <-. exists z_enc, dz.
  repeat split; try assumption. now subst f.
Qed.

Lemma DecRStateFn_features_shape
    (self : DecRStateFn.t GraphsTuple GnnParams ZParams HeadParams RnnParams)
    (e f : Array) (n d : nat) (z : option Array) :
  shape e = [n; d] ->
  DecRStateFn.features self p e n z = Ok f ->
  exists x : Array,
    shape x = [n; if DecRStateFn.use_global_info self then (d + d)%nat else d]
    /\ match DecRStateFn.z_encoder_cls self with
       | Some enc => z_enc <- enc (p_z_encoder p) z ;; concatenate_last x z_enc
       | None => Ok x
       end = Ok f.
Proof.
  intros He. unfold DecRStateFn.features. intros H.
  apply bind_ok in H as (x & Hx & H). exists x. split; [|exact H].
  destruct (DecRStateFn.use_global_info self).
  - apply bind_ok in Hx as (m & Hm & Hx).
    apply mean0_ok in Hm as (n' & rest & Hs & ->).
    rewrite He in Hs. injection Hs as <- <-.
    apply concatenate_last_ok in Hx as (_ & _ & _ & ->).
    rewrite He, (tile_n1_shape n d) by reflexivity. reflexivity.
  - now injection Hx as <-.
Qed.

Lemma DecRStateFn_features_total
    (self : DecRStateFn.t GraphsTuple GnnParams ZParams HeadParams RnnParams)
    (e : Array) (n d : nat) (z : option Array) :
  shape e = [n; d] ->
  exists x : Array,
    shape x = [n; if DecRStateFn.use_global_info self then (d + d)%nat else d]
    /\ DecRStateFn.features self p e n z
       = match DecRStateFn.z_encoder_cls self with
         | Some enc => z_enc <- enc (p_z_encoder p) z ;; concatenate_last x z_enc
         | None => Ok x
         end.
Proof.
  intros He. unfold DecRStateFn.features.
  destruct (DecRStateFn.use_global_info self).
  - destruct (mean0_total true e n [d] He) as (m & -> & Hm). cbn [bind].
    destruct (concatenate_last_total [n] d d e (tile_n1 n m) He
                (tile_n1_shape n d m Hm)) as (x & -> & Hx).
    cbn [bind]. exists x. split; [exact Hx | reflexivity].
  - exists e. split; [exact He | reflexivity].
Qed.

(** A call of the recurrent centralized value function that returns went
    through every stage. *)
Lemma RStateFn_call_ok
    (self : RStateFn.t GraphsTuple GnnParams ZParams HeadParams RnnParams)
    (graph : GraphsTuple) (rnn_state : Array) (n_agents : nat)
    (z : option Array) (values rnn_state' : Array) :
  RStateFn.call self p graph rnn_state n_agents z = Ok (values, rnn_state') ->
  exists e m f h x : Array,
    RStateFn.gnn_cls self (p_gnn p) graph 0%nat n_agents = Ok e
    /\ mean0 true e = Ok m
    /\ match RStateFn.z_encoder_cls self with
       | Some enc => z_enc <- enc (p_z_encoder p) z ;; concatenate_last m z_enc
       | None => Ok m
       end = Ok f
    /\ RStateFn.head_cls self (p_head p) f = Ok h
    /\ match RStateFn.rnn_cls self with
       | Some rnn => rnn (p_rnn p) h rnn_state
       | None => Ok (h, rnn_state)
       end = Ok (x, rnn_state')
    /\ Dense (RStateFn.n_out self) (p_dense p) x = Ok values.
Proof.
  unfold RStateFn.call. intros H.
  apply bind_ok in H as (e & He & H).
  apply bind_ok in H as (m & Hm & H).
  apply bind_ok in H as (f & Hf & H).
  apply bind_ok in H as (h & Hh & H).
  apply bind_ok in H as ([x s] & Hr & H).
  apply bind_ok in H as (y & Hd & H).
  injection H as <- <-.
  exists e, m, f, h, x. auto 10.
Qed.

Lemma DecRStateFn_call_shape
    (self : DecRStateFn.t GraphsTuple GnnParams ZParams HeadParams RnnParams)
    (graph : GraphsTuple) (rnn_state : Array) (n_agents : nat)
    (z : option Array) (values rnn_state' : Array) :
  DecRStateFn.call self p graph rnn_state n_agents z = Ok (values, rnn_state') ->
  shape values = [n_agents; DecRStateFn.n_out self].
Proof.
  unfold DecRStateFn.call. intros H.
  apply bind_ok in H as (e & _ & H).
  apply bind_ok in H as (f & _ & H).
  apply bind_ok in H as (h & _ & H).
  apply bind_ok in H as (n0 & _ & H).
  apply bind_ok in H as (u & _ & H).
  apply bind_ok in H as ([x s] & _ & H).
  apply bind_ok in H as (y & _ & H).
  apply bind_ok in H as (u' & Ha & H).
  injection H as <- _.
  apply assert_ok in Ha. now apply shape_eqb_eq in Ha.
Qed.

End HeadInputs.

(** ** The facade in all its configurations *)

Section FacadeFacts.
Variables GraphsTuple GnnParams RnnParams : Type.
Variable GraphTransformerGNN : nat -> nat -> nat -> nat -> GnnCls GraphsTuple GnnParams.
Variable RNN : RnnBase -> nat -> RnnCls RnnParams.

(** The GNN hands back one embedding of width [out_dim] per node of the
    requested type. *)
Hypothesis GNN_shape :
  forall (msg_dim out_dim n_heads n_layers : nat) (p : GnnParams)
         (g : GraphsTuple) (node_type n_type : nat) (x : Array),
    GraphTransformerGNN msg_dim out_dim n_heads n_layers p g node_type n_type = Ok x ->
    shape x = [n_type; out_dim].

Variables node_dim edge_dim n_agents n_out rnn_layers gnn_layers gnn_out_dim : nat.
Variable params : Params GnnParams DenseParams MLP.Params RnnParams.
Variable obs : GraphsTuple.
Variable rnn_state : Array.

Local Abbreviation net_gnn := (GraphTransformerGNN 32 gnn_out_dim 3 gnn_layers).
Local Abbreviation net_head := (MLP.call (MLP.mk [64; 64]%nat relu true)).
Local Abbreviation net_enc use_ef :=
  (if use_ef then Some (ZEncoder.call (ZEncoder.mk 8 1 1)) else None).

(** What the encoder of the facade demands of the latent it is given. *)
Lemma facade_add_z (use_ef : bool) (x f : Array) (z : option Array) (n w : nat) :
  shape x = [n; w] ->
  match net_enc use_ef with
  | Some enc => z_enc <- enc (p_z_encoder params) z ;; concatenate_last x z_enc
  | None => Ok x
  end = Ok f ->
  shape f = [n; (w + if use_ef then 8 else 0)%nat]
  /\ (use_ef = true ->
      exists zz : Array,
        z = Some zz
        /\ batch_dims (shape zz) = [n]
        /\ fits_dense (last_dim (shape zz)) 8 (p_z_encoder params)).
Proof.
  intros Hx H. destruct use_ef.
  - destruct (add_z_shape _ _ _ _ params
                (Some (ZEncoder.call (ZEncoder.mk 8 1 1))) x f z n w Hx H)
      as (z_enc & dz & Hz & Sz & _ & Sf).
    apply ZEncoder_shape in Hz as (zz & -> & Hne & Hfit & Hs).
    rewrite Sz in Hs. change [n; dz] with ([n] ++ [dz]) in Hs.
    apply app_inj_tail in Hs as [Hb Hd]. simpl in Hd. subst dz.
    split; [exact Sf|]. intros _. exists zz. auto.
  - injection H as <-. rewrite Nat.add_0_r. split; [exact Hx | discriminate].
Qed.

(** A call of the decomposed head of the facade that returns. *)
Lemma facade_dec_ok (rnn : option (RnnCls RnnParams)) (use_ef global : bool)
    (z : option Array) (values rnn_state' : Array) :
  DecRStateFn.call (DecRStateFn.mk net_gnn net_head n_out rnn (net_enc use_ef) global)
    params obs rnn_state n_agents z = Ok (values, rnn_state') ->
  exists f h x : Array,
    shape f = [n_agents; head_in_dim gnn_out_dim use_ef true global]
    /\ net_head (p_head params) f = Ok h
    /\ match rnn with
       | Some rnn => rnn (p_rnn params) h rnn_state
       | None => Ok (h, rnn_state)
       end = Ok (x, rnn_state')
    /\ Dense n_out (p_dense params) x = Ok values
    /\ (use_ef = true ->
        exists zz : Array,
          z = Some zz
          /\ batch_dims (shape zz) = [n_agents]
          /\ fits_dense (last_dim (shape zz)) 8 (p_z_encoder params)).
Proof.
  intros H.
  apply DecRStateFn_call_ok in H as (e & f & h & x & He & Hf & Hh & _ & Hr & Hd).
  simpl in He, Hf, Hh, Hr, Hd. apply GNN_shape in He.
  destruct (DecRStateFn_features_shape _ _ _ _ _ params _ e f n_agents gnn_out_dim
              z He Hf) as (x0 & Sx & Hz).
  simpl in Sx, Hz.
  destruct (facade_add_z use_ef x0 f z _ _ Sx Hz) as [Sf Hlat].
  exists f, h, x. unfold head_in_dim. simpl andb. auto 10.
Qed.

(** A call of the centralized head of the facade that returns. *)
Lemma facade_r_ok (rnn : option (RnnCls RnnParams)) (use_ef : bool)
    (z : option Array) (values rnn_state' : Array) :
  RStateFn.call (RStateFn.mk net_gnn net_head n_out rnn (net_enc use_ef))
    params obs rnn_state n_agents z = Ok (values, rnn_state') ->
  exists f h x : Array,
    shape f = [1%nat; (gnn_out_dim + if use_ef then 8 else 0)%nat]
    /\ net_head (p_head params) f = Ok h
    /\ match rnn with
       | Some rnn => rnn (p_rnn params) h rnn_state
       | None => Ok (h, rnn_state)
       end = Ok (x, rnn_state')
    /\ Dense n_out (p_dense params) x = Ok values
    /\ (use_ef = true ->
        exists zz : Array,
          z = Some zz
          /\ batch_dims (shape zz) = [1%nat]
          /\ fits_dense (last_dim (shape zz)) 8 (p_z_encoder params)).
Proof.
  intros H.
  apply RStateFn_call_ok in H as (e & m & f & h & x & He & Hm & Hf & Hh & Hr & Hd).
  simpl in He, Hf, Hh, Hr, Hd. apply GNN_shape in He.
  apply mean0_ok in Hm as (n' & rest & Hs & ->).
  rewrite He in Hs. injection Hs as <- <-.
  apply (facade_add_z use_ef _ f z 1%nat gnn_out_dim) in Hf as [Sf Hlat];
    [|reflexivity].
  exists f, h, x. auto 10.
Qed.

(** A [get_value] that returns, in any configuration: what the head was
    applied to, and what the latent must have looked like. *)
Lemma facade_get_value_ok (use_rnn use_lstm use_ef decompose global : bool)
    (z : option Array) (values rnn_state' : Array) :
  ValueNet.get_value
    (ValueNet.init GraphTransformerGNN RNN node_dim edge_dim n_agents n_out
       use_rnn rnn_layers gnn_layers gnn_out_dim use_lstm use_ef decompose global)
    params obs rnn_state z = Ok (values, rnn_state') ->
  exists f h x : Array,
    shape f = [value_rows n_agents decompose;
               head_in_dim gnn_out_dim use_ef decompose global]
    /\ net_head (p_head params) f = Ok h
    /\ (use_rnn = false -> x = h /\ rnn_state' = rnn_state)
    /\ Dense n_out (p_dense params) x = Ok values
    /\ (decompose = true -> shape values = [n_agents; n_out])
    /\ (use_ef = true ->
        exists zz : Array,
          z = Some zz
          /\ batch_dims (shape zz) = [value_rows n_agents decompose]
          /\ fits_dense (last_dim (shape zz)) 8 (p_z_encoder params)).
Proof.
  unfold ValueNet.get_value. intros H.
  apply bind_ok in H as ([v s] & H & Hr). injection Hr as -> ->.
  destruct decompose.
  - assert (Hs : shape values = [n_agents; n_out])
      by (destruct use_rnn; exact (DecRStateFn_call_shape _ _ _ _ _ _ _ _ _ _ _ _ _ H)).
    destruct use_rnn; simpl in H;
      apply facade_dec_ok in H as (f & h & x & Sf & Hh & Hr & Hd & Hz);
      exists f, h, x;
      (split; [exact Sf|]); (split; [exact Hh|]);
      (split; [|split; [exact Hd|split; [intros _; exact Hs | exact Hz]]]).
    + discriminate.
    + intros _. injection Hr as <- <-. split; reflexivity.
  - destruct use_rnn; simpl in H;
      apply facade_r_ok in H as (f & h & x & Sf & Hh & Hr & Hd & Hz);
      exists f, h, x;
      (split; [exact Sf|]); (split; [exact Hh|]);
      (split; [|split; [exact Hd|split; [discriminate | exact Hz]]]).
    + discriminate.
    + intros _. injection Hr as <- <-. split; reflexivity.
Qed.

(** X2: in every configuration of the facade, a [get_value] that returns
    gives a value of [n_agents] rows and [n_out] columns when the network is
    decomposed; and without recurrence it gives one of [(1, n_out)] when the
    network is centralized, and hands back the recurrent state it was
    given. *)
Theorem get_value_rows_and_state
    (use_rnn use_lstm use_ef decompose global : bool)
    (z : option Array) (values rnn_state' : Array) :
  ValueNet.get_value
    (ValueNet.init GraphTransformerGNN RNN node_dim edge_dim n_agents n_out
       use_rnn rnn_layers gnn_layers gnn_out_dim use_lstm use_ef decompose global)
    params obs rnn_state z = Ok (values, rnn_state') ->
  (decompose = true -> shape values = [n_agents; n_out])
  /\ (use_rnn = false ->
      shape values = [value_rows n_agents decompose; n_out]
      /\ rnn_state' = rnn_state).
Proof.
  intros H.
  apply facade_get_value_ok in H as (f & h & x & Sf & Hh & Hr & Hd & Hs & _).
  split; [exact Hs|]. intros Hu. destruct (Hr Hu) as [-> ->].
  split; [|reflexivity].
  apply MLP_two_layers_ok in Hh as (_ & _ & _ & _ & _ & _ & Sh).
  apply Dense_shape in Hd. rewrite Hd, Sh, Sf.
  change (batch_dims [value_rows n_agents decompose;
                      head_in_dim gnn_out_dim use_ef decompose global])
    with [value_rows n_agents decompose].
  now rewrite batch_dims_app.
Qed.

(** X3: a [get_value] that returns pins down the stored variables: the
    head holds two dense layers, the first from [head_in_dim] features (the
    GNN width, doubled under decomposition with the global embedding, plus 8
    with the latent) to 64, the second from 64 to 64; without recurrence the
    final projection goes from 64 to [n_out]; and with the latent in use the
    latent was given, with one row per row of the value, and the encoder's
    variables go from its width to 8. *)
Theorem get_value_stored_variable_shapes
    (use_rnn use_lstm use_ef decompose global : bool)
    (z : option Array) (values rnn_state' : Array) :
  ValueNet.get_value
    (ValueNet.init GraphTransformerGNN RNN node_dim edge_dim n_agents n_out
       use_rnn rnn_layers gnn_layers gnn_out_dim use_lstm use_ef decompose global)
    params obs rnn_state z = Ok (values, rnn_state') ->
  (exists (d1 d2 : DenseParams) (rest : MLP.Params),
      p_head params = d1 :: d2 :: rest
      /\ fits_dense (head_in_dim gnn_out_dim use_ef decompose global) 64 d1
      /\ fits_dense 64 64 d2)
  /\ (use_rnn = false -> fits_dense 64 n_out (p_dense params))
  /\ (use_ef = true ->
      exists zz : Array,
        z = Some zz
        /\ batch_dims (shape zz) = [value_rows n_agents decompose]
        /\ fits_dense (last_dim (shape zz)) 8 (p_z_encoder params)).
Proof.
  intros H.
  apply facade_get_value_ok in H as (f & h & x & Sf & Hh & Hr & Hd & _ & Hz).
  apply MLP_two_layers_ok in Hh as (d1 & d2 & rest & Hp & F1 & F2 & Sh).
  rewrite Sf in F1, Sh.
  change (last_dim [value_rows n_agents decompose;
                    head_in_dim gnn_out_dim use_ef decompose global])
    with (head_in_dim gnn_out_dim use_ef decompose global) in F1.
  split; [exists d1, d2, rest; auto|]. split; [|exact Hz].
  intros Hu. destruct (Hr Hu) as [-> _].
  apply Dense_ok in Hd as (_ & Hk & Hb & _).
  rewrite Sh, last_dim_app in Hk. split; assumption.
Qed.

Lemma facade_add_z_total (enc : option (ZEncoderCls DenseParams)) (use_ef : bool)
    (x : Array) (z : option Array) (n w : nat) :
  enc = net_enc use_ef ->
  shape x = [n; w] ->
  latent_fits use_ef n z (p_z_encoder params) ->
  exists f : Array,
    match enc with
    | Some enc => z_enc <- enc (p_z_encoder params) z ;; concatenate_last x z_enc
    | None => Ok x
    end = Ok f
    /\ shape f = [n; (w + if use_ef then 8 else 0)%nat].
Proof.
  intros -> Hx Hl. destruct use_ef.
  - destruct Hl as (zz & k & -> & Hz & Hf).
    destruct (ZEncoder_total (ZEncoder.mk 8 1 1) (p_z_encoder params) zz [n] k Hz Hf)
      as (z_enc & -> & Sz).
    cbn [bind]. exact (concatenate_last_total [n] w 8 x z_enc Hx Sz).
  - exists x. rewrite Nat.add_0_r. split; [reflexivity | exact Hx].
Qed.

(** The decomposed head of the facade, without recurrence, on variables that
    fit. *)
Lemma facade_dec_total
    (self : DecRStateFn.t GraphsTuple GnnParams DenseParams MLP.Params RnnParams)
    (use_ef : bool) (z : option Array) (e : Array) (d1 d2 : DenseParams)
    (rest : MLP.Params) :
  DecRStateFn.head_cls self = net_head ->
  DecRStateFn.rnn_cls self = None ->
  DecRStateFn.z_encoder_cls self = net_enc use_ef ->
  DecRStateFn.gnn_cls self (p_gnn params) obs 0%nat n_agents = Ok e ->
  shape e = [n_agents; gnn_out_dim] ->
  p_head params = d1 :: d2 :: rest ->
  fits_dense (head_in_dim gnn_out_dim use_ef true (DecRStateFn.use_global_info self))
    64 d1 ->
  fits_dense 64 64 d2 ->
  fits_dense 64 (DecRStateFn.n_out self) (p_dense params) ->
  latent_fits use_ef n_agents z (p_z_encoder params) ->
  exists values : Array,
    DecRStateFn.call self params obs rnn_state n_agents z = Ok (values, rnn_state)
    /\ shape values = [n_agents; DecRStateFn.n_out self].
Proof.
  intros Hh Hr Hz Hg He Hp F1 F2 F3 Hl.
  unfold DecRStateFn.call, DecRStateFn.rnn_stage. rewrite Hg, Hh, Hr. cbn [bind].
  destruct (DecRStateFn_features_total _ _ _ _ _ params self e n_agents
              gnn_out_dim z He) as (x0 & Sx & ->).
  destruct (facade_add_z_total _ use_ef x0 z _ _ Hz Sx Hl) as (f & -> & Sf).
  cbn [bind]. rewrite Hp.
  destruct (MLP_two_layers_total relu 64 64 _ [n_agents] d1 d2 rest f Sf F1 F2)
    as (h & -> & Sh).
  cbn [bind]. unfold shape_at. rewrite Sh. cbn [nth_error app bind].
  rewrite Nat.eqb_refl. cbn [assert bind].
  destruct (Dense_fits (DecRStateFn.n_out self) 64 [n_agents] (p_dense params) h
              Sh F3) as (y & -> & Sy).
  cbn [bind]. rewrite Sy. cbn [app]. rewrite shape_eqb_refl. cbn [assert bind].
  eauto.
Qed.

(** The centralized head of the facade, without recurrence, on variables
    that fit. *)
Lemma facade_r_total
    (self : RStateFn.t GraphsTuple GnnParams DenseParams MLP.Params RnnParams)
    (use_ef : bool) (z : option Array) (e : Array) (d1 d2 : DenseParams)
    (rest : MLP.Params) :
  RStateFn.head_cls self = net_head ->
  RStateFn.rnn_cls self = None ->
  RStateFn.z_encoder_cls self = net_enc use_ef ->
  RStateFn.gnn_cls self (p_gnn params) obs 0%nat n_agents = Ok e ->
  shape e = [n_agents; gnn_out_dim] ->
  p_head params = d1 :: d2 :: rest ->
  fits_dense (head_in_dim gnn_out_dim use_ef false false) 64 d1 ->
  fits_dense 64 64 d2 ->
  fits_dense 64 (RStateFn.n_out self) (p_dense params) ->
  latent_fits use_ef 1 z (p_z_encoder params) ->
  exists values : Array,
    RStateFn.call self params obs rnn_state n_agents z = Ok (values, rnn_state)
    /\ shape values = [1%nat; RStateFn.n_out self].
Proof.
  intros Hh Hr Hz Hg He Hp F1 F2 F3 Hl.
  unfold RStateFn.call. rewrite Hg, Hh, Hr. cbn [bind].
  destruct (mean0_total true e n_agents [gnn_out_dim] He) as (m & -> & Sm).
  cbn [bind].
  destruct (facade_add_z_total _ use_ef m z _ _ Hz Sm Hl) as (f & -> & Sf).
  cbn [bind]. rewrite Hp.
  destruct (MLP_two_layers_total relu 64 64 _ [1%nat] d1 d2 rest f Sf F1 F2)
    as (h & -> & Sh).
  cbn [bind].
  destruct (Dense_fits (RStateFn.n_out self) 64 [1%nat] (p_dense params) h Sh F3)
    as (y & -> & Sy).
  cbn [bind]. eauto.
Qed.

(** X4: without recurrence, [get_value] returns, with a value of shape
    [(rows, n_out)] and the state it was given, as soon as the GNN returns,
    the two layers of the head fit [head_in_dim] and 64 features, the final
    projection fits 64 and [n_out], and, when the latent is in use, the
    latent has one row per row of the value and the encoder's variables fit
    its width. *)
Theorem get_value_returns_without_rnn
    (use_lstm use_ef decompose global : bool) (z : option Array)
    (e : Array) (d1 d2 : DenseParams) (rest : MLP.Params) :
  GraphTransformerGNN 32 gnn_out_dim 3 gnn_layers (p_gnn params) obs 0%nat n_agents
  = Ok e ->
  p_head params = d1 :: d2 :: rest ->
  fits_dense (head_in_dim gnn_out_dim use_ef decompose global) 64 d1 ->
  fits_dense 64 64 d2 ->
  fits_dense 64 n_out (p_dense params) ->
  latent_fits use_ef (value_rows n_agents decompose) z (p_z_encoder params) ->
  exists values : Array,
    ValueNet.get_value
      (ValueNet.init GraphTransformerGNN RNN node_dim edge_dim n_agents n_out
         false rnn_layers gnn_layers gnn_out_dim use_lstm use_ef decompose global)
      params obs rnn_state z = Ok (values, rnn_state)
    /\ shape values = [value_rows n_agents decompose; n_out].
Proof.
  intros Hg Hp F1 F2 F3 Hl. pose proof (GNN_shape _ _ _ _ _ _ _ _ _ Hg) as He.
  unfold ValueNet.get_value. destruct decompose.
  - cbn [ValueNet.init ValueNet.net ValueNet.apply ValueNet.n_agents].
    destruct (facade_dec_total
                (DecRStateFn.mk net_gnn net_head n_out None (net_enc use_ef) global)
                use_ef z e d1 d2 rest eq_refl eq_refl eq_refl Hg He Hp F1 F2 F3 Hl)
      as (values & Hv & Hs).
    exists values. split; [|exact Hs].
    etransitivity; [|exact (f_equal (fun r => '(v, s) <- r ;; Ok (v, s)) Hv)].
    reflexivity.
  - cbn [ValueNet.init ValueNet.net ValueNet.apply ValueNet.n_agents].
    destruct (facade_r_total
                (RStateFn.mk net_gnn net_head n_out None (net_enc use_ef))
                use_ef z e d1 d2 rest eq_refl eq_refl eq_refl Hg He Hp F1 F2 F3 Hl)
      as (values & Hv & Hs).
    exists values. split; [|exact Hs].
    etransitivity; [|exact (f_equal (fun r => '(v, s) <- r ;; Ok (v, s)) Hv)].
    reflexivity.
Qed.

(** The heads of the facade with the encoder configured, called without a
    latent. *)
Lemma facade_dec_none
    (self : DecRStateFn.t GraphsTuple GnnParams DenseParams MLP.Params RnnParams)
    (e : Array) :
  DecRStateFn.z_encoder_cls self = net_enc true ->
  DecRStateFn.gnn_cls self (p_gnn params) obs 0%nat n_agents = Ok e ->
  shape e = [n_agents; gnn_out_dim] ->
  DecRStateFn.call self params obs rnn_state n_agents None = Err TypeError.
Proof.
  intros Hz Hg He. unfold DecRStateFn.call. rewrite Hg. cbn [bind].
  destruct (DecRStateFn_features_total _ _ _ _ _ params self e n_agents
              gnn_out_dim None He) as (x0 & _ & ->).
  rewrite Hz. reflexivity.
Qed.

Lemma facade_r_none
    (self : RStateFn.t GraphsTuple GnnParams DenseParams MLP.Params RnnParams)
    (e : Array) :
  RStateFn.z_encoder_cls self = net_enc true ->
  RStateFn.gnn_cls self (p_gnn params) obs 0%nat n_agents = Ok e ->
  shape e = [n_agents; gnn_out_dim] ->
  RStateFn.call self params obs rnn_state n_agents None = Err TypeError.
Proof.
  intros Hz Hg He. unfold RStateFn.call. rewrite Hg. cbn [bind].
  destruct (mean0_total true e n_agents [gnn_out_dim] He) as (m & -> & _).
  cbn [bind]. rewrite Hz. reflexivity.
Qed.

(** X5: with the latent in use, [get_value] called without a latent never
    returns; and once the GNN has returned, what it raises is the
    [TypeError] of the encoder's first arithmetic on [None], whatever the
    other flags are. *)
Theorem get_value_needs_latent
    (use_rnn use_lstm decompose global : bool) :
  let self := ValueNet.init GraphTransformerGNN RNN node_dim edge_dim n_agents
                n_out use_rnn rnn_layers gnn_layers gnn_out_dim use_lstm true
                decompose global in
  (forall values rnn_state' : Array,
      ValueNet.get_value self params obs rnn_state None <> Ok (values, rnn_state'))
  /\ (forall e : Array,
        GraphTransformerGNN 32 gnn_out_dim 3 gnn_layers (p_gnn params) obs 0%nat
          n_agents = Ok e ->
        ValueNet.get_value self params obs rnn_state None = Err TypeError).
Proof.
  intros self. split.
  - intros values rnn_state' H. subst self.
    apply facade_get_value_ok in H as (_ & _ & _ & _ & _ & _ & _ & _ & Hz).
    destruct (Hz eq_refl) as (zz & Hzz & _). discriminate.
  - intros e Hg. pose proof (GNN_shape _ _ _ _ _ _ _ _ _ Hg) as He.
    subst self. unfold ValueNet.get_value.
    destruct decompose, use_rnn;
      cbn [ValueNet.init ValueNet.net ValueNet.apply ValueNet.n_agents].
    all: match goal with
         | |- context [DecRStateFn.call ?s _ _ _ _ _] =>
             rewrite (facade_dec_none s e eq_refl Hg He)
         | |- context [RStateFn.call ?s _ _ _ _ _] =>
             rewrite (facade_r_none s e eq_refl Hg He)
         end; reflexivity.
Qed.

End FacadeFacts.

Lemma get_value_rows_and_state_witness :
  exists values rnn_state' : Array,
    ValueNet.get_value valueNetDec valueParamsDec obs0 rnn_state0 (Some z0)
    = Ok (values, rnn_state')
    /\ shape values = [4; 1]%nat
    /\ rnn_state' = rnn_state0.
Proof.
  eexists. eexists. split; [reflexivity|].
  exact (proj2 (get_value_rows_and_state Array DenseParams unit LinearGNN AddRNN
                  LinearGNN_shape 2 1 4 1 1 1 16 valueParamsDec obs0 rnn_state0
                  false false true true true (Some z0) _ _ eq_refl) eq_refl).
Defined.

Lemma get_value_stored_variable_shapes_witness :
  (exists (d1 d2 : DenseParams) (rest : MLP.Params),
      p_head valueParamsDec = d1 :: d2 :: rest
      /\ fits_dense 40 64 d1 /\ fits_dense 64 64 d2)
  /\ fits_dense 64 1 (p_dense valueParamsDec)
  /\ (exists zz : Array,
        Some z0 = Some zz
        /\ batch_dims (shape zz) = [4%nat]
        /\ fits_dense (last_dim (shape zz)) 8 (p_z_encoder valueParamsDec)).
Proof.
  destruct (get_value_stored_variable_shapes Array DenseParams unit LinearGNN
              AddRNN LinearGNN_shape 2 1 4 1 1 1 16 valueParamsDec obs0
              rnn_state0 false false true true true (Some z0) _ _ eq_refl)
    as (H1 & H2 & H3).
  split; [exact H1|]. split; [exact (H2 eq_refl) | exact (H3 eq_refl)].
Defined.

Lemma get_value_returns_without_rnn_witness :
  exists values : Array,
    ValueNet.get_value valueNetDec valueParamsDec obs0 rnn_state0 (Some z0)
    = Ok (values, rnn_state0)
    /\ shape values = [4; 1]%nat.
Proof.
  refine (get_value_returns_without_rnn Array DenseParams unit LinearGNN AddRNN
            LinearGNN_shape 2 1 4 1 1 1 16 valueParamsDec obs0 rnn_state0
            false true true true (Some z0) _ _ _ _ eq_refl eq_refl _ _ _ _).
  - split; reflexivity.
  - split; reflexivity.
  - split; reflexivity.
  - exists z0, 1%nat. repeat split; reflexivity.
Defined.

Lemma get_value_needs_latent_witness :
  ValueNet.get_value valueNetEf valueParams0 obs0 rnn_state0 None = Err TypeError.
Proof.
  exact (proj2 (get_value_needs_latent Array DenseParams unit LinearGNN AddRNN
                  LinearGNN_shape 2 1 4 1 1 1 16 valueParams0 obs0 rnn_state0
                  true false false false) _ eq_refl).
Defined.

(** ** The decomposed head against a wrong agent count *)

(** X8: when the GNN hands the decomposed head embeddings of [m] agents and
    the call says [n_agents <> m], with no latent encoder configured, the
    call never gets through: fusing the global embedding, the concatenation
    with the [n_agents] tiled rows raises its [TypeError]; without it, an
    MLP head keeps the [m] rows and the first assertion fails. *)
Theorem DecRStateFn_wrong_agent_count
    (GraphsTuple GnnParams ZParams RnnParams : Type)
    (self : DecRStateFn.t GraphsTuple GnnParams ZParams MLP.Params RnnParams)
    (p : Params GnnParams ZParams MLP.Params RnnParams)
    (graph : GraphsTuple) (rnn_state : Array) (n_agents : nat)
    (z : option Array) (e : Array) (m d : nat) :
  DecRStateFn.gnn_cls self (p_gnn p) graph 0%nat n_agents = Ok e ->
  shape e = [m; d] ->
  m <> n_agents ->
  DecRStateFn.z_encoder_cls self = None ->
  (DecRStateFn.use_global_info self = true ->
   DecRStateFn.call self p graph rnn_state n_agents z = Err TypeError)
  /\ (DecRStateFn.use_global_info self = false ->
      forall (mlp : MLP.t) (h : Array),
        DecRStateFn.head_cls self = MLP.call mlp ->
        MLP.call mlp (p_head p) e = Ok h ->
        DecRStateFn.call self p graph rnn_state n_agents z = Err AssertionError).
Proof.
  intros Hg He Hne Hz. unfold DecRStateFn.call, DecRStateFn.features.
  rewrite Hg, Hz. cbn [bind]. split; intros Hu; rewrite Hu.
  - destruct (mean0_total true e m [d] He) as (mm & -> & Sm). cbn [bind].
    rewrite concatenate_last_mismatch; [reflexivity | now rewrite He |].
    rewrite He, (tile_n1_shape n_agents d mm Sm).
    change (batch_dims [m; d]) with [m].
    change (batch_dims [n_agents; d]) with [n_agents]. congruence.
  - intros mlp h Hc Hh. cbn [bind]. rewrite Hc, Hh. cbn [bind].
    destruct (MLP_rowwise mlp (p_head p) m d e e h h He He Hh Hh)
      as [(d' & Sh & _) _].
    unfold shape_at. rewrite Sh. cbn [nth_error bind].
    apply Nat.eqb_neq in Hne. now rewrite Hne.
Qed.

Lemma DecRStateFn_wrong_agent_count_witness :
  DecRStateFn.call decGlobal (decParams 4) emb3x2 rnn_state0 2 None = Err TypeError
  /\ DecRStateFn.call decPlain (decParams 2) emb3x2 rnn_state0 2 None
     = Err AssertionError.
Proof.
  split.
  - refine (proj1 (DecRStateFn_wrong_agent_count _ _ _ _ decGlobal (decParams 4)
                     emb3x2 rnn_state0 2 None emb3x2 3 2 eq_refl eq_refl _ eq_refl)
                  eq_refl).
    discriminate.
  - refine (proj2 (DecRStateFn_wrong_agent_count _ _ _ _ decPlain (decParams 2)
                     emb3x2 rnn_state0 2 None emb3x2 3 2 eq_refl eq_refl _ eq_refl)
                  eq_refl (MLP.mk [3; 2]%nat relu true) _ eq_refl eq_refl).
    discriminate.
Defined.

(** ** The wrapper around the latent encoder *)

Lemma concatenate_last_feature_rows (a b c : Array) :
  concatenate_last a b = Ok c -> wf a -> wf b ->
  feature_rows c = zip_app (feature_rows a) (feature_rows b) /\ wf c.
Proof.
  intros H Wa Wb.
  apply concatenate_last_ok in H as (Ha & Hn & Hb & ->).
  assert (Hb' : shape b <> []).
  { unfold ndim in Hn. destruct (shape b); [|discriminate].
    destruct (shape a); [congruence | discriminate]. }
  set (pre := batch_dims (shape a)) in *.
  set (d1 := last_dim (shape a)). set (d2 := last_dim (shape b)).
  assert (Sa : shape a = pre ++ [d1]) by now apply app_removelast_last.
  assert (Sb : shape b = pre ++ [d2])
    by (rewrite Hb; now apply app_removelast_last).
  assert (La : List.length (data a) = (size_of pre * d1)%nat).
  { unfold wf in Wa. rewrite Wa, Sa, size_of_app. simpl. lia. }
  assert (Lb : List.length (data b) = (size_of pre * d2)%nat).
  { unfold wf in Wb. rewrite Wb, Sb, size_of_app. simpl. lia. }
  assert (Fa : feature_rows a = chunks d1 (size_of pre) (data a)) by reflexivity.
  assert (Fb : feature_rows b = chunks d2 (size_of pre) (data b))
    by (unfold feature_rows; now rewrite <- Hb).
  rewrite Fa, Fb.
  set (zs := zip_app (chunks d1 (size_of pre) (data a))
                     (chunks d2 (size_of pre) (data b))).
  assert (Fz : Forall (fun r => List.length r = (d1 + d2)%nat) zs)
    by (apply zip_app_rows_full; now apply chunks_rows_full).
  assert (Lz : List.length zs = size_of pre)
    by (unfold zs; rewrite zip_app_length; rewrite !chunks_length; reflexivity).
  split.
  - unfold feature_rows. simpl shape. simpl data.
    rewrite last_dim_app, batch_dims_app, <- Lz. now apply chunks_concat.
  - unfold wf. simpl. rewrite (concat_rows_length _ _ Fz), Lz, size_of_app.
    simpl. lia.
Qed.

Section WrappedEncoder.
Variable BaseParams : Type.
Variable base : BaseParams -> Array -> result Array.
Variable enc : ZEncoder.t.
Variable p : EFWrapper.Params BaseParams DenseParams.

(** X9: around the latent encoder, for an observation of shape
    [pre + (d,)]: with a latent of shape [pre] and encoder variables for one
    input feature, the wrapper is the base network applied to an array of
    shape [pre + (d + nz,)]; with a latent of the same rank and other
    dimensions it raises the concatenation's [TypeError]; and whenever it
    returns, the encoder's variables are for one input feature and the
    latent has the leading dimensions of the observation. *)
Theorem EFWrapper_ZEncoder_shapes (obs z : Array) (pre : list nat) (d : nat) :
  let self := EFWrapper.mk base (ZEncoder.call enc) in
  shape obs = pre ++ [d] ->
  (shape z = pre ->
   fits_dense 1 (ZEncoder.nz enc) (EFWrapper.p_z_encoder p) ->
   exists feat : Array,
     shape feat = pre ++ [(d + ZEncoder.nz enc)%nat]
     /\ EFWrapper.call self p obs z = base (EFWrapper.p_base p) feat)
  /\ (List.length (shape z) = List.length pre ->
      shape z <> pre ->
      fits_dense 1 (ZEncoder.nz enc) (EFWrapper.p_z_encoder p) ->
      EFWrapper.call self p obs z = Err TypeError)
  /\ (forall y : Array,
        EFWrapper.call self p obs z = Ok y ->
        fits_dense 1 (ZEncoder.nz enc) (EFWrapper.p_z_encoder p)
        /\ shape z = pre).
Proof.
  intros self Ho. unfold EFWrapper.call, ndim. subst self.
  cbn [EFWrapper.z_encoder_cls EFWrapper.base_cls].
  rewrite Ho, length_app. cbn [List.length].
  split; [|split].
  - intros Hz Hf. rewrite Hz, Nat.eqb_refl. cbn [assert bind].
    destruct (ZEncoder_total enc (EFWrapper.p_z_encoder p) (expand_last z)
                (shape z) 1 eq_refl Hf) as (e & -> & Se).
    cbn [bind]. rewrite Hz in Se.
    destruct (concatenate_last_total pre d (ZEncoder.nz enc) obs e Ho Se)
      as (feat & -> & Sf).
    cbn [bind]. exists feat. split; [exact Sf | reflexivity].
  - intros Hl Hne Hf. rewrite Hl, Nat.eqb_refl. cbn [assert bind].
    destruct (ZEncoder_total enc (EFWrapper.p_z_encoder p) (expand_last z)
                (shape z) 1 eq_refl Hf) as (e & -> & Se).
    cbn [bind]. rewrite concatenate_last_mismatch; [reflexivity | |].
    + rewrite Ho. now destruct pre.
    + rewrite Ho, Se, !batch_dims_app. congruence.
  - intros y H.
    apply bind_ok in H as (u & _ & H).
    apply bind_ok in H as (e & He & H).
    apply bind_ok in H as (feat & Hc & _).
    apply ZEncoder_shape in He as (z' & Hz' & _ & Hf & Se).
    injection Hz' as <-. simpl shape in Hf, Se.
    rewrite last_dim_app in Hf. rewrite batch_dims_app in Se.
    apply concatenate_last_ok in Hc as (_ & _ & Hb & _).
    rewrite Ho, Se, !batch_dims_app in Hb. split; [exact Hf | congruence].
Qed.

(** X10: what the wrapper hands to the base network keeps the observation:
    for a well-formed observation and latent, each feature vector of the
    fused array is the observation's feature vector followed by the encoding
    of the latent at the same position. *)
Theorem EFWrapper_keeps_observation (obs z y : Array) :
  let self := EFWrapper.mk base (ZEncoder.call enc) in
  wf obs ->
  EFWrapper.call self p obs z = Ok y ->
  exists enc_z feat : Array,
    ZEncoder.call enc (EFWrapper.p_z_encoder p) (Some (expand_last z)) = Ok enc_z
    /\ base (EFWrapper.p_base p) feat = Ok y
    /\ wf feat
    /\ feature_rows feat = zip_app (feature_rows obs) (feature_rows enc_z).
Proof.
  intros self Wo H. unfold EFWrapper.call in H. subst self.
  cbn [EFWrapper.z_encoder_cls EFWrapper.base_cls] in H.
  apply bind_ok in H as (u & _ & H).
  apply bind_ok in H as (e & He & H).
  apply bind_ok in H as (feat & Hc & H).
  pose proof (ZEncoder_wf _ _ _ _ He) as We.
  destruct (concatenate_last_feature_rows _ _ _ Hc Wo We) as [Hr Wf].
  exists e, feat. auto.
Qed.

End WrappedEncoder.

Lemma EFWrapper_ZEncoder_shapes_witness :
  (exists feat : Array,
      shape feat = [4; 13]%nat
      /\ EFWrapper.call efWrapper0 efParams0 obs4x5 z4
         = DenseBase (EFWrapper.p_base efParams0) feat)
  /\ EFWrapper.call efWrapper0 efParams0 obs3x5 z4 = Err TypeError.
Proof.
  pose proof (EFWrapper_ZEncoder_shapes DenseParams DenseBase zEncoder0 efParams0
                obs4x5 z4 [4%nat] 5 eq_refl) as (H1 & _ & _).
  pose proof (EFWrapper_ZEncoder_shapes DenseParams DenseBase zEncoder0 efParams0
                obs3x5 z4 [3%nat] 5 eq_refl) as (_ & H2 & _).
  split.
  - apply H1; [reflexivity | split; reflexivity].
  - apply H2; [reflexivity | discriminate | split; reflexivity].
Defined.

Lemma EFWrapper_keeps_observation_witness :
  exists y enc_z feat : Array,
    EFWrapper.call efWrapper0 efParams0 obs4x5 z4 = Ok y
    /\ ZEncoder.call zEncoder0 zParams0 (Some (expand_last z4)) = Ok enc_z
    /\ feature_rows feat = zip_app (feature_rows obs4x5) (feature_rows enc_z).
Proof.
  assert (H : exists y, EFWrapper.call efWrapper0 efParams0 obs4x5 z4 = Ok y)
    by (eexists; reflexivity).
  destruct H as [y Hy].
  destruct (EFWrapper_keeps_observation DenseParams DenseBase zEncoder0 efParams0
              obs4x5 z4 y eq_refl Hy) as (enc_z & feat & He & _ & _ & Hr).
  exists y, enc_z, feat. auto.
Defined.

(** ** The latent encoder, agent by agent *)

(** X11: on a latent of one row per agent, the encoder works row by row:
    the output has one row of [nz] features per agent, and the row of agent
    [i] is [tanh] of the dense projection of that agent's normalized latent,
    whatever the other agents' latents are. *)
Theorem ZEncoder_encodes_rows
    (self : ZEncoder.t) (p : DenseParams) (z y : Array) (n k : nat) :
  shape z = [n; k] ->
  ZEncoder.call self p (Some z) = Ok y ->
  shape y = [n; ZEncoder.nz self]
  /\ forall i : nat,
       (i < n)%nat ->
       row i y
       = map tanh
           (dense_row k (ZEncoder.nz self) p
              (map (fun v => (v - ZEncoder.z_mean self) / ZEncoder.z_scale self)
                   (row i z))).
Proof.
  intros Hz H. unfold ZEncoder.call in H.
  apply bind_ok in H as (d & Hd & H). injection H as <-.
  destruct (Dense_rank2 _ _ (ZEncoder.norm_z self z) _ n k Hz Hd) as [Sd Rd].
  split; [exact Sd|]. intros i Hi.
  rewrite amap_row, (Rd i Hi). unfold ZEncoder.norm_z. now rewrite amap_row.
Qed.

Lemma ZEncoder_encodes_rows_witness :
  exists y : Array,
    ZEncoder.call zEncoder0 zParams0 (Some z0) = Ok y
    /\ row 2 y
       = map tanh (dense_row 1 8 zParams0 (map (fun v => (v - 1) / 1) (row 2 z0))).
Proof.
  eexists. split; [reflexivity|].
  refine (proj2 (ZEncoder_encodes_rows zEncoder0 zParams0 z0 _ 4 1 eq_refl eq_refl)
                2%nat _).
  lia.
Defined.

(** ** The decomposed head keeps each agent's latent to that agent *)

Section LatentLocality.
Variables GraphsTuple GnnParams HeadParams RnnParams : Type.
Variable self : DecRStateFn.t GraphsTuple GnnParams DenseParams HeadParams RnnParams.
Variable p : Params GnnParams DenseParams HeadParams RnnParams.

(** What the latent encoding is concatenated to does not depend on the
    latent, and is well formed when the embeddings are. *)
Lemma DecRStateFn_features_fused (e : Array) (n d : nat) :
  shape e = [n; d] -> wf e ->
  exists x : Array,
    shape x = [n; if DecRStateFn.use_global_info self then (d + d)%nat else d]
    /\ wf x
    /\ forall z : option Array,
         DecRStateFn.features self p e n z
         = match DecRStateFn.z_encoder_cls self with
           | Some enc => z_enc <- enc (p_z_encoder p) z ;; concatenate_last x z_enc
           | None => Ok x
           end.
Proof.
  intros He We. unfold DecRStateFn.features.
  destruct (DecRStateFn.use_global_info self).
  - destruct (mean_tile_rank2 e n d He We) as (m & Hm & _ & St & Wt & _).
    rewrite Hm. cbn [bind].
    destruct (concatenate_last_total [n] d d e (tile_n1 n m) He St)
      as (x & Hx & Sx).
    destruct (concatenate_last_rank2 _ _ _ _ _ He We Wt Hx) as (_ & _ & _ & Wx & _).
    rewrite Hx. cbn [bind]. exists x. auto.
  - exists e. auto.
Qed.

(** From equal rows of the head's input to equal rows of the value. *)
Lemma DecRStateFn_tail_rows (rnn_state : Array) (n w i : nat)
    (f1 f2 h1 h2 x1 x2 s1 s2 v1 v2 : Array) :
  rowwise (DecRStateFn.head_cls self (p_head p)) ->
  rowwise_rnn (DecRStateFn.rnn_cls self) (p_rnn p) rnn_state ->
  shape f1 = [n; w] -> shape f2 = [n; w] ->
  (i < n)%nat ->
  row i f1 = row i f2 ->
  DecRStateFn.head_cls self (p_head p) f1 = Ok h1 ->
  DecRStateFn.head_cls self (p_head p) f2 = Ok h2 ->
  DecRStateFn.rnn_stage self p h1 rnn_state = Ok (x1, s1) ->
  DecRStateFn.rnn_stage self p h2 rnn_state = Ok (x2, s2) ->
  Dense (DecRStateFn.n_out self) (p_dense p) x1 = Ok v1 ->
  Dense (DecRStateFn.n_out self) (p_dense p) x2 = Ok v2 ->
  row i v1 = row i v2.
Proof.
  intros Hhead Hrnn Sf1 Sf2 Hi Hf Hh1 Hh2 Hr1 Hr2 D1 D2.
  destruct (Hhead _ _ _ _ _ _ Sf1 Sf2 Hh1 Hh2) as ((dh & Sh1 & Sh2) & Rh).
  assert (Hx : (exists dx, shape x1 = [n; dx] /\ shape x2 = [n; dx])
               /\ (row i h1 = row i h2 -> row i x1 = row i x2)).
  { unfold DecRStateFn.rnn_stage in Hr1, Hr2. unfold rowwise_rnn in Hrnn.
    destruct (DecRStateFn.rnn_cls self) as [rnn|].
    - destruct (Hrnn n dh h1 h2 x1 x2 Sh1 Sh2) as [Sx Rx].
      + now rewrite Hr1.
      + now rewrite Hr2.
      + split; [exact Sx | exact (Rx i Hi)].
    - injection Hr1 as <- _. injection Hr2 as <- _.
      split; [exists dh; split; assumption | auto]. }
  destruct Hx as ((dx & Sx1 & Sx2) & Rx).
  destruct (Dense_rank2 _ _ _ _ _ _ Sx1 D1) as [_ R1].
  destruct (Dense_rank2 _ _ _ _ _ _ Sx2 D2) as [_ R2].
  rewrite R1, R2 by exact Hi. f_equal. auto.
Qed.

(** X12: in the decomposed head conditioned on the latent through
    [ZEncoder], with a head and a recurrent wrapper that work row by row,
    the value row of agent [i] does not depend on the other agents' latents:
    for one graph, two latents of one row per agent that agree on row [i]
    give the same row [i] of the value, with the global embedding fused in
    or not. *)
Theorem DecRStateFn_latent_locality
    (enc : ZEncoder.t) (graph : GraphsTuple) (rnn_state : Array) (n d k i : nat)
    (e z1 z2 values1 values2 s1 s2 : Array) :
  DecRStateFn.z_encoder_cls self = Some (ZEncoder.call enc) ->
  rowwise (DecRStateFn.head_cls self (p_head p)) ->
  rowwise_rnn (DecRStateFn.rnn_cls self) (p_rnn p) rnn_state ->
  DecRStateFn.gnn_cls self (p_gnn p) graph 0%nat n = Ok e ->
  shape e = [n; d] -> wf e ->
  shape z1 = [n; k] -> shape z2 = [n; k] ->
  (i < n)%nat ->
  row i z1 = row i z2 ->
  DecRStateFn.call self p graph rnn_state n (Some z1) = Ok (values1, s1) ->
  DecRStateFn.call self p graph rnn_state n (Some z2) = Ok (values2, s2) ->
  row i values1 = row i values2.
Proof.
  intros Hz Hhead Hrnn Hg He We Sz1 Sz2 Hi Hrow C1 C2.
  apply DecRStateFn_call_ok in C1
    as (e1 & f1 & h1 & x1 & G1 & F1 & Hh1 & _ & Hr1 & D1).
  apply DecRStateFn_call_ok in C2
    as (e2 & f2 & h2 & x2 & G2 & F2 & Hh2 & _ & Hr2 & D2).
  assert (e1 = e) by congruence. assert (e2 = e) by congruence. subst e1 e2.
  destruct (DecRStateFn_features_fused e n d He We) as (x & Sx & Wx & Hf).
  rewrite Hf, Hz in F1, F2.
  apply bind_ok in F1 as (c1 & E1 & F1). apply bind_ok in F2 as (c2 & E2 & F2).
  destruct (ZEncoder_encodes_rows _ _ _ _ _ _ Sz1 E1) as [Sc1 Rc1].
  destruct (ZEncoder_encodes_rows _ _ _ _ _ _ Sz2 E2) as [Sc2 Rc2].
  destruct (concatenate_last_rank2 _ _ _ _ _ Sx Wx (ZEncoder_wf _ _ _ _ E1) F1)
    as (w1 & Sc1' & Sf1 & _ & Rf1).
  destruct (concatenate_last_rank2 _ _ _ _ _ Sx Wx (ZEncoder_wf _ _ _ _ E2) F2)
    as (w2 & Sc2' & Sf2 & _ & Rf2).
  assert (w1 = ZEncoder.nz enc) by congruence.
  assert (w2 = ZEncoder.nz enc) by congruence. subst w1 w2.
  refine (DecRStateFn_tail_rows rnn_state n _ i f1 f2 h1 h2 x1 x2 s1 s2
            values1 values2 Hhead Hrnn Sf1 Sf2 Hi _ Hh1 Hh2 Hr1 Hr2 D1 D2).
  rewrite Rf1, Rf2, Rc1, Rc2 by exact Hi. now rewrite Hrow.
Qed.

End LatentLocality.

Lemma DecRStateFn_latent_locality_witness :
  exists values1 values2 s1 s2 : Array,
    DecRStateFn.call decFull (decParams 12) emb2x2 carry2x2 2 (Some z2x1)
    = Ok (values1, s1)
    /\ DecRStateFn.call decFull (decParams 12) emb2x2 carry2x2 2 (Some z2x1')
       = Ok (values2, s2)
    /\ row 1 values1 = row 1 values2.
Proof.
  eexists. eexists. eexists. eexists.
  split; [reflexivity|]. split; [reflexivity|].
  refine (DecRStateFn_latent_locality _ _ _ _ decFull (decParams 12) zEncoder0
            emb2x2 carry2x2 2 2 1 1 emb2x2 z2x1 z2x1' _ _ _ _
            eq_refl _ _ eq_refl eq_refl eq_refl eq_refl eq_refl _ eq_refl
            eq_refl eq_refl).
  - apply MLP_rowwise.
  - apply AddRNN_rowwise.
  - lia.
Defined.
